(** * The download-and-ledger subsystem, embedded and verified

    A shallow embedding of [backend/core/downloader.py] (path sanitizer,
    SQLite ledger, transfer engine with its retry decorator) and of
    [backend/services/downloader.py] (the second downloader), followed by the
    properties of the specification that concern them. *)

From Stdlib Require Import ZArith Lia Bool.
From Stdlib Require Import Strings.String Strings.Ascii Strings.Byte.
From Stdlib Require Import Numbers.DecimalString.
From stdpp Require Import gmap strings list.

Local Open Scope Z_scope.

(** ** hashlib.sha256

    [hashlib.sha256()] is a library object: [update] feeds bytes and
    [hexdigest] returns the FIPS 180-4 digest of everything fed so far, as 64
    lower-case hexadecimal digits.  The round constants are derived the way
    the standard defines them (fractional parts of the square and cube roots
    of the first primes) rather than tabulated. *)
Module SHA256.

Definition w32 (x : Z) : Z := x mod 2 ^ 32.
Definition add32 (x y : Z) : Z := w32 (x + y).
Definition rotr (n x : Z) : Z :=
  Z.lor (Z.shiftr x n) (w32 (Z.shiftl x (32 - n))).
Definition xor3 (x y z : Z) : Z := Z.lxor (Z.lxor x y) z.

Definition Ch (x y z : Z) : Z :=
  Z.lxor (Z.land x y) (Z.land (w32 (Z.lnot x)) z).
Definition Maj (x y z : Z) : Z :=
  xor3 (Z.land x y) (Z.land x z) (Z.land y z).
Definition bsig0 (x : Z) : Z := xor3 (rotr 2 x) (rotr 13 x) (rotr 22 x).
Definition bsig1 (x : Z) : Z := xor3 (rotr 6 x) (rotr 11 x) (rotr 25 x).
Definition ssig0 (x : Z) : Z := xor3 (rotr 7 x) (rotr 18 x) (Z.shiftr x 3).
Definition ssig1 (x : Z) : Z := xor3 (rotr 17 x) (rotr 19 x) (Z.shiftr x 10).

Definition is_prime (n : nat) : bool :=
  forallb (fun d => negb (Nat.eqb (Nat.modulo n d) 0)) (seq 2 (n - 2)).

(** The first 64 primes: 2 .. 311. *)
Definition primes64 : list Z :=
  map Z.of_nat (filter (fun n => Is_true (is_prime n)) (seq 2 310)).

(** Largest [x] in [lo, hi) with [x^3 <= n], by bisection. *)
Fixpoint cube_root (fuel : nat) (n lo hi : Z) : Z :=
  match fuel with
  | O => lo
  | S fuel' =>
      if hi - lo <=? 1 then lo
      else
        let mid := (lo + hi) / 2 in
        if mid * mid * mid <=? n then cube_root fuel' n mid hi
        else cube_root fuel' n lo mid
  end.

Definition frac_cbrt32 (p : Z) : Z := w32 (cube_root 64 (p * 2 ^ 96) 0 (2 ^ 40)).
Definition frac_sqrt32 (p : Z) : Z := w32 (Z.sqrt (p * 2 ^ 64)).

Definition K : list Z := Eval vm_compute in map frac_cbrt32 primes64.

Definition state : Type := Z * Z * Z * Z * Z * Z * Z * Z.

Definition H0 : state :=
  Eval vm_compute in
    match map frac_sqrt32 (firstn 8 primes64) with
    | [a; b; c; d; e; f; g; h] => (a, b, c, d, e, f, g, h)
    | _ => (0, 0, 0, 0, 0, 0, 0, 0)
    end.

(** One round: [win] holds the sixteen most recent schedule words, oldest first. *)
Definition round (acc : state * list Z) (k : Z) : state * list Z :=
  let '((a, b, c, d, e, f, g, h), win) := acc in
  let w := nth 0 win 0 in
  let t1 := add32 (add32 (add32 (add32 h (bsig1 e)) (Ch e f g)) k) w in
  let t2 := add32 (bsig0 a) (Maj a b c) in
  let next :=
    add32 (add32 (add32 (ssig1 (nth 14 win 0)) (nth 9 win 0))
                 (ssig0 (nth 1 win 0))) w in
  ((add32 t1 t2, a, b, c, add32 d t1, e, f, g), tl win ++ [next]).

Definition compress (s : state) (block : list Z) : state :=
  let '(a, b, c, d, e, f, g, h) := s in
  let '(a', b', c', d', e', f', g', h') := fst (fold_left round K (s, block)) in
  (add32 a a', add32 b b', add32 c c', add32 d d',
   add32 e e', add32 f f', add32 g g', add32 h h').

Definition byteZ (b : byte) : Z := Z.of_N (Byte.to_N b).

(** Big-endian bytes of [x], [n] of them. *)
Fixpoint be_bytes (n : nat) (x : Z) : list Z :=
  match n with
  | O => []
  | S n' => (Z.shiftr x (8 * Z.of_nat n')) mod 256 :: be_bytes n' x
  end.

Definition pad (msg : list byte) : list Z :=
  let len := Z.of_nat (length msg) in
  let zeros := Z.to_nat ((55 - len) mod 64) in
  map byteZ msg ++ [128] ++ repeat 0 zeros ++ be_bytes 8 (8 * len).

Fixpoint words (fuel : nat) (bs : list Z) : list Z :=
  match fuel, bs with
  | S fuel', b3 :: b2 :: b1 :: b0 :: rest =>
      (b3 * 2 ^ 24 + b2 * 2 ^ 16 + b1 * 2 ^ 8 + b0) :: words fuel' rest
  | _, _ => []
  end.

Fixpoint blocks (fuel : nat) (s : state) (ws : list Z) : state :=
  match fuel, ws with
  | S fuel', _ :: _ => blocks fuel' (compress s (firstn 16 ws)) (skipn 16 ws)
  | _, _ => s
  end.

Definition digest (msg : list byte) : state :=
  let bs := pad msg in
  let ws := words (length bs) bs in
  blocks (length ws) H0 ws.

Definition hex_digit (d : Z) : ascii :=
  nth (Z.to_nat d)
      (list_ascii_of_string "0123456789abcdef") "0"%char.

Definition hex_word (w : Z) (rest : string) : string :=
  String (hex_digit (Z.shiftr w 28 mod 16))
  (String (hex_digit (Z.shiftr w 24 mod 16))
  (String (hex_digit (Z.shiftr w 20 mod 16))
  (String (hex_digit (Z.shiftr w 16 mod 16))
  (String (hex_digit (Z.shiftr w 12 mod 16))
  (String (hex_digit (Z.shiftr w 8 mod 16))
  (String (hex_digit (Z.shiftr w 4 mod 16))
  (String (hex_digit (w mod 16)) rest))))))).

Definition hexdigest (msg : list byte) : string :=
  let '(a, b, c, d, e, f, g, h) := digest msg in
  hex_word a (hex_word b (hex_word c (hex_word d
    (hex_word e (hex_word f (hex_word g (hex_word h ""))))))).

End SHA256.

(** Bytes of an ASCII text, for writing file contents and bodies. *)
Definition bytes (s : string) : list byte := list_byte_of_string s.

(** ** Exceptions and results

    The exception classes that the two downloaders raise or catch.
    [ClientError] stands for [aiohttp.ClientError] and its subclasses
    (carrying [str(e)]), [TimeoutError] for [asyncio.TimeoutError]; the typed
    errors of [backend/core/exceptions.py] keep their attributes;
    [AttributeError] carries the name that was looked up and not found. *)
Inductive exn : Type :=
| ClientError (msg : string)
| TimeoutError
| DownloadFailedError (url reason : string) (retries : Z)
| DownloadTimeoutError (url : string) (timeout_seconds : Z)
| ValueError (msg : string)
| FileNotFoundError (path : string)
| IntegrityError (msg : string)
| AttributeError (name : string).

Inductive result (A : Type) : Type :=
| Ok (a : A)
| Raise (e : exn).
Arguments Ok {A} a.
Arguments Raise {A} e.

(** [isinstance(e, OSINTPipelineError)]: the classified, typed errors. *)
Definition is_typed_error (e : exn) : bool :=
  match e with
  | DownloadFailedError _ _ _ | DownloadTimeoutError _ _ => true
  | _ => false
  end.

(** [str(e)] of the exceptions whose text the code stores. *)
Definition str_exn (e : exn) : string :=
  match e with
  | ClientError msg => msg
  | TimeoutError => ""
  | DownloadFailedError url reason _ =>
      "Download failed for " +:+ url +:+ ": " +:+ reason
  | DownloadTimeoutError url timeout_seconds =>
      "Download timed out for " +:+ url +:+ " after "
      +:+ NilZero.string_of_int (Z.to_int timeout_seconds) +:+ "s"
  | ValueError msg => msg
  | FileNotFoundError path => "[Errno 2] No such file or directory: '" +:+ path +:+ "'"
  | IntegrityError msg => msg
  | AttributeError name => "module 'aiohttp' has no attribute '" +:+ name +:+ "'"
  end.

(** ** pathlib

    A [Path] as pathlib keeps it: the root flag and the components, in which
    empty and [.] segments never occur while [..] segments are kept.
    [resolve] is taken on a file system without symbolic links: the path is
    made absolute against the working directory and [..] is cancelled
    against the component before it (at the root it is dropped). *)
Module Pathlib.

Record Path : Type := mkPath { is_absolute : bool; parts : list string }.

Definition str (p : Path) : string :=
  match is_absolute p, parts p with
  | false, [] => "."
  | false, ps => String.concat "/" ps
  | true, ps => "/" +:+ String.concat "/" ps
  end.

(** [a / b] *)
Definition truediv (a b : Path) : Path :=
  if is_absolute b then b
  else mkPath (is_absolute a) (parts a ++ parts b).

Definition collapse_step (stack : list string) (seg : string) : list string :=
  if String.eqb seg ".." then tl stack else seg :: stack.

Definition collapse (ps : list string) : list string :=
  rev (fold_left collapse_step ps []).

Definition resolve (cwd : list string) (p : Path) : Path :=
  mkPath true (collapse ((if is_absolute p then [] else cwd) ++ parts p)).

Fixpoint starts_with (pre l : list string) : bool :=
  match pre, l with
  | [], _ => true
  | x :: pre', y :: l' => String.eqb x y && starts_with pre' l'
  | _ :: _, [] => false
  end.

(** [p.relative_to(other)]: purely lexical, on the components as given. *)
Definition relative_to (p other : Path) : result Path :=
  if Bool.eqb (is_absolute p) (is_absolute other)
     && starts_with (parts other) (parts p)
  then Ok (mkPath false (skipn (length (parts other)) (parts p)))
  else Raise (ValueError (str p +:+ " is not in the subpath of " +:+ str other)).

End Pathlib.
Import Pathlib.

(** [needle in hay] on strings. *)
Fixpoint contains (needle hay : string) : bool :=
  String.prefix needle hay
  || match hay with
     | EmptyString => false
     | String _ hay' => contains needle hay'
     end.

(** [sanitize_path(dest_path, allowed_base)], [cwd] being the working
    directory that [resolve] consults. *)
Definition sanitize_path (cwd : list string) (dest_path allowed_base : Path)
  : result Path :=
  let resolved := resolve cwd (truediv allowed_base dest_path) in
  if contains ".." (str dest_path) || is_absolute dest_path then
    Raise (ValueError ("Path traversal attempt detected: " +:+ str dest_path))
  else
    match relative_to resolved allowed_base with
    | Raise _ =>
        Raise (ValueError ("Path " +:+ str dest_path
                           +:+ " escapes allowed directory " +:+ str allowed_base))
    | Ok _ => Ok resolved
    end.

(** ** backend/core/downloader.py: data model *)

Inductive DownloadStatus : Type :=
| PENDING | DOWNLOADING | PAUSED | COMPLETED | FAILED | DUPLICATE.

Definition status_eqb (a b : DownloadStatus) : bool :=
  match a, b with
  | PENDING, PENDING | DOWNLOADING, DOWNLOADING | PAUSED, PAUSED
  | COMPLETED, COMPLETED | FAILED, FAILED | DUPLICATE, DUPLICATE => true
  | _, _ => false
  end.

(** The dataclass [DownloadTask]; timestamps are seconds on the ledger's clock. *)
Record DownloadTask : Type := mkTask {
  id : option Z;
  source_url : string;
  local_filepath : string;
  status : DownloadStatus;
  bytes_downloaded : Z;
  total_bytes : option Z;
  sha256_hash : option string;
  retry_count : Z;
  error_message : option string;
  created_at : option Z;
  updated_at : option Z
}.

(** Attribute assignments [task.f = v]. *)
Definition with_status (t : DownloadTask) (s : DownloadStatus) : DownloadTask :=
  mkTask (id t) (source_url t) (local_filepath t) s (bytes_downloaded t)
         (total_bytes t) (sha256_hash t) (retry_count t) (error_message t)
         (created_at t) (updated_at t).
Definition with_bytes_downloaded (t : DownloadTask) (n : Z) : DownloadTask :=
  mkTask (id t) (source_url t) (local_filepath t) (status t) n
         (total_bytes t) (sha256_hash t) (retry_count t) (error_message t)
         (created_at t) (updated_at t).
Definition with_total_bytes (t : DownloadTask) (n : option Z) : DownloadTask :=
  mkTask (id t) (source_url t) (local_filepath t) (status t) (bytes_downloaded t)
         n (sha256_hash t) (retry_count t) (error_message t)
         (created_at t) (updated_at t).
Definition with_sha256_hash (t : DownloadTask) (h : option string) : DownloadTask :=
  mkTask (id t) (source_url t) (local_filepath t) (status t) (bytes_downloaded t)
         (total_bytes t) h (retry_count t) (error_message t)
         (created_at t) (updated_at t).
Definition with_retry_count (t : DownloadTask) (n : Z) : DownloadTask :=
  mkTask (id t) (source_url t) (local_filepath t) (status t) (bytes_downloaded t)
         (total_bytes t) (sha256_hash t) n (error_message t)
         (created_at t) (updated_at t).
Definition with_error_message (t : DownloadTask) (m : option string) : DownloadTask :=
  mkTask (id t) (source_url t) (local_filepath t) (status t) (bytes_downloaded t)
         (total_bytes t) (sha256_hash t) (retry_count t) m
         (created_at t) (updated_at t).

(** The dataclass [DownloadProgress]; its [percentage] is the float
    [bytes_downloaded / total_bytes * 100] and is not carried. *)
Record DownloadProgress : Type := mkProgress {
  progress_url : string;
  progress_bytes_downloaded : Z;
  progress_total_bytes : option Z;
  progress_status : DownloadStatus
}.

(** ** DownloadLedger: the table [download_tasks]

    One record per row, rows in rowid order.  [SELECT ... fetchone()] is the
    first matching row in that order. *)
Record Row : Type := mkRow {
  col_id : Z;
  col_source_url : string;
  col_local_filepath : string;
  col_status : DownloadStatus;
  col_bytes_downloaded : Z;
  col_total_bytes : option Z;
  col_sha256_hash : option string;
  col_retry_count : Z;
  col_error_message : option string;
  col_created_at : Z;
  col_updated_at : Z
}.

Definition _row_to_task (row : Row) : DownloadTask :=
  mkTask (Some (col_id row)) (col_source_url row) (col_local_filepath row)
         (col_status row) (col_bytes_downloaded row) (col_total_bytes row)
         (col_sha256_hash row) (col_retry_count row) (col_error_message row)
         (Some (col_created_at row)) (Some (col_updated_at row)).

(** [cursor.lastrowid] of an insert into an AUTOINCREMENT table whose rows
    are never deleted. *)
Definition next_rowid (rows : list Row) : Z :=
  1 + fold_right Z.max 0 (map col_id rows).

(** [create_task]: the INSERT fails on the UNIQUE constraint of
    [source_url]; the other columns take their declared defaults. *)
Definition create_task (now : Z) (url filepath : string) (rows : list Row)
  : list Row * result DownloadTask :=
  if existsb (fun r => String.eqb (col_source_url r) url) rows then
    (rows, Raise (IntegrityError "UNIQUE constraint failed: download_tasks.source_url"))
  else
    let task_id := next_rowid rows in
    (rows ++ [mkRow task_id url filepath PENDING 0 None None 0 None now now],
     Ok (mkTask (Some task_id) url filepath PENDING 0 None None 0 None None None)).

(** The four reading methods set [db.row_factory = aiohttp.NamedTupleRow]
    before they run their query.  aiohttp defines no such name (the row
    factories are [sqlite3.Row] and [aiosqlite.Row]), so evaluating the
    attribute raises AttributeError and the query below it is never run.
    Each method is written here as the source has it, the attribute first
    and the query after it; the queries have names of their own because the
    statements below also use them to say which rows a table holds. *)
Definition NamedTupleRow : result unit := Raise (AttributeError "NamedTupleRow").

Definition with_row_factory {A : Type} (query : A) : result A :=
  match NamedTupleRow with
  | Ok _ => Ok query
  | Raise e => Raise e
  end.

(** [SELECT * FROM download_tasks WHERE source_url = ?], [fetchone()]. *)
Definition select_by_url (url : string) (rows : list Row) : option DownloadTask :=
  option_map _row_to_task
    (List.find (fun r => String.eqb (col_source_url r) url) rows).

Definition get_task_by_url (url : string) (rows : list Row)
  : result (option DownloadTask) :=
  with_row_factory (select_by_url url rows).

Definition hash_is (h : string) (o : option string) : bool :=
  match o with
  | Some h' => String.eqb h' h
  | None => false
  end.

(** [SELECT * ... WHERE sha256_hash = ? AND status = 'completed'], [fetchone()]. *)
Definition select_by_hash (hash_value : string) (rows : list Row)
  : option DownloadTask :=
  option_map _row_to_task
    (List.find (fun r => hash_is hash_value (col_sha256_hash r)
                         && status_eqb (col_status r) COMPLETED) rows).

Definition get_task_by_hash (hash_value : string) (rows : list Row)
  : result (option DownloadTask) :=
  with_row_factory (select_by_hash hash_value rows).

(** [SELECT * ... WHERE status IN ('downloading', 'paused')], [fetchall()]. *)
Definition select_incomplete (rows : list Row) : list DownloadTask :=
  map _row_to_task
    (List.filter (fun r => status_eqb (col_status r) DOWNLOADING
                           || status_eqb (col_status r) PAUSED) rows).

Definition get_incomplete_tasks (rows : list Row) : result (list DownloadTask) :=
  with_row_factory (select_incomplete rows).

(** The UPDATE statement of [update_task] on one row. *)
Definition update_row (now : Z) (task : DownloadTask) (r : Row) : Row :=
  if String.eqb (col_source_url r) (source_url task) then
    mkRow (col_id r) (col_source_url r) (col_local_filepath r)
          (status task) (bytes_downloaded task) (total_bytes task)
          (sha256_hash task) (retry_count task) (error_message task)
          (col_created_at r) now
  else r.

Definition update_task (now : Z) (task : DownloadTask) (rows : list Row)
  : list Row :=
  map (update_row now task) rows.

(** [SELECT * FROM download_tasks], [fetchall()]. *)
Definition select_all (rows : list Row) : list DownloadTask :=
  map _row_to_task rows.

Definition get_all_tasks (rows : list Row) : result (list DownloadTask) :=
  with_row_factory (select_all rows).

(** ** The world around the transfer engine

    The HTTP server is an oracle: the answer to the [n]-th request issued
    (counting from 0) may depend on the request.  A response carries its
    status, its [Content-Length] header already read as an integer, the
    chunks that [iter_chunked] yields and, when the stream breaks after them,
    the error raised instead of the end of the body. *)
Inductive net_error : Type :=
| NetClientError (msg : string)
| NetTimeout.

Definition exn_of_net (e : net_error) : exn :=
  match e with
  | NetClientError msg => ClientError msg
  | NetTimeout => TimeoutError
  end.

Record Request : Type := mkRequest {
  req_url : string;
  req_range : option Z   (* [Range: bytes=N-] *)
}.

Record Response : Type := mkResponse {
  resp_status : Z;
  resp_content_length : option Z;
  resp_chunks : list (list byte);
  resp_error : option net_error
}.

Inductive Outcome : Type :=
| Refused (e : net_error)
| Responded (r : Response).

(** The downloader object: its settings, whether a progress callback was
    given, and the environment it runs in.  The clock is read by the ledger's
    CURRENT_TIMESTAMP; the passage of time is not modelled. *)
Record AsyncDownloader : Type := mkDownloader {
  max_concurrent : Z;
  chunk_size : Z;
  timeout : Z;
  max_retries : Z;
  downloads_dir : Path;
  _progress_callback : bool;
  cwd : list string;
  clock : Z;
  server : nat -> Request -> Outcome
}.

(** Mutable state: the ledger table, the regular files on disk by path
    string (directories are not tracked, so [mkdir(parents=True,
    exist_ok=True)] leaves it alone), the requests issued so far and the
    progress snapshots handed to the callback. *)
Record World : Type := mkWorld {
  ledger : list Row;
  files : gmap string (list byte);
  requests : list Request;
  emitted : list DownloadProgress
}.

Definition set_ledger (w : World) (l : list Row) : World :=
  mkWorld l (files w) (requests w) (emitted w).
Definition set_files (w : World) (f : gmap string (list byte)) : World :=
  mkWorld (ledger w) f (requests w) (emitted w).

Definition len (chunk : list byte) : Z := Z.of_nat (length chunk).

(** [session.get(url, headers=...)]: the request is recorded and the oracle
    answers it. *)
Definition session_get (self : AsyncDownloader) (w : World) (req : Request)
  : World * Outcome :=
  (mkWorld (ledger w) (files w) (requests w ++ [req]) (emitted w),
   server self (length (requests w)) req).

(** [dest_path.unlink()]: [None] when there is no such file. *)
Definition unlink (key : string) (w : World) : option World :=
  match files w !! key with
  | Some _ => Some (set_files w (delete key (files w)))
  | None => None
  end.

(** [dest_path.open(mode)] for [mode] in ["ab"], ["wb"]. *)
Definition open_for_write (key : string) (append : bool) (w : World) : World :=
  let old := if append then default [] (files w !! key) else [] in
  set_files w (<[key := old]> (files w)).

(** [f.write(chunk)] on a file opened by [open_for_write]. *)
Definition write_chunk (key : string) (chunk : list byte) (w : World) : World :=
  set_files w (<[key := default [] (files w !! key) ++ chunk]> (files w)).

Definition _emit_progress (self : AsyncDownloader) (w : World)
    (task : DownloadTask) (total_bytes : Z) : World :=
  if _progress_callback self && (0 <? total_bytes) then
    mkWorld (ledger w) (files w) (requests w)
            (emitted w ++ [mkProgress (source_url task) (bytes_downloaded task)
                                      (Some total_bytes) (status task)])
  else w.

Definition ledger_update (self : AsyncDownloader) (w : World) (task : DownloadTask)
  : World :=
  set_ledger w (update_task (clock self) task (ledger w)).

(** ** AsyncDownloader._perform_download *)

(** The chunk loop of the 416 branch.  Each chunk is written by
    [dest_path.open("wb").write(chunk)]: the file is opened afresh,
    truncated, for every chunk, and holds that chunk alone afterwards. *)
Fixpoint stream_restart (self : AsyncDownloader) (key : string) (total_bytes : Z)
    (chunks : list (list byte)) (w : World) (task : DownloadTask)
    (hasher : list byte) (downloaded : Z)
  : World * DownloadTask * list byte * Z :=
  match chunks with
  | [] => (w, task, hasher, downloaded)
  | chunk :: rest =>
      let w := set_files w (<[key := chunk]> (files w)) in
      let hasher := hasher ++ chunk in
      let downloaded := downloaded + len chunk in
      let task := with_bytes_downloaded task downloaded in
      let w := _emit_progress self w task total_bytes in
      stream_restart self key total_bytes rest w task hasher downloaded
  end.

(** The chunk loop of the 200/206 branch, inside [with dest_path.open(mode)]. *)
Fixpoint stream_body (self : AsyncDownloader) (key : string) (total_bytes : Z)
    (chunks : list (list byte)) (w : World) (task : DownloadTask)
    (hasher : list byte) (downloaded : Z)
  : World * DownloadTask * list byte * Z :=
  match chunks with
  | [] => (w, task, hasher, downloaded)
  | chunk :: rest =>
      let w := write_chunk key chunk w in
      let hasher := hasher ++ chunk in
      let downloaded := downloaded + len chunk in
      let task := with_bytes_downloaded task downloaded in
      let w := _emit_progress self w task total_bytes in
      stream_body self key total_bytes rest w task hasher downloaded
  end.

(** After the body: digest, duplicate lookup, final status.  An exception
    of the lookup leaves the [try] statement with file and task as they
    stand. *)
Definition finish_transfer (w : World) (task : DownloadTask) (key : string)
    (hasher : list byte) : World * DownloadTask * result unit :=
  let final_hash := SHA256.hexdigest hasher in
  let completed :=
    (w, with_status (with_sha256_hash task (Some final_hash)) COMPLETED, Ok tt) in
  match get_task_by_hash final_hash (ledger w) with
  | Raise e => (w, task, Raise e)
  | Ok (Some existing_with_hash) =>
      if negb (String.eqb (source_url existing_with_hash) (source_url task)) then
        let task := with_status task DUPLICATE in
        match unlink key w with
        | Some w => (w, task, Ok tt)
        | None => (w, task, Raise (FileNotFoundError key))
        end
      else completed
  | Ok None => completed
  end.

(** [str(e)] of the [aiohttp.ClientResponseError] built for an unexpected status. *)
Definition response_error_text (status : Z) (url : string) : string :=
  String.concat "" [NilZero.string_of_int (Z.to_int status);
                    ", message='', url='"; url; "'"].

(** The body of the [try] statement, exceptions not yet handled. *)
Definition transfer (self : AsyncDownloader) (w : World) (task : DownloadTask)
    (key : string) (range : option Z) (downloaded : Z)
  : World * DownloadTask * result unit :=
  let '(w, out) := session_get self w (mkRequest (source_url task) range) in
  match out with
  | Refused e => (w, task, Raise (exn_of_net e))
  | Responded response =>
      if resp_status response =? 416 then
        match unlink key w with
        | None => (w, task, Raise (FileNotFoundError key))
        | Some w =>
            let downloaded := 0 in
            let task := with_bytes_downloaded task 0 in
            let '(w, out) := session_get self w (mkRequest (source_url task) None) in
            match out with
            | Refused e => (w, task, Raise (exn_of_net e))
            | Responded response =>
                let total_bytes := default 0 (resp_content_length response) in
                let task := with_total_bytes task (Some total_bytes) in
                let '(w, task, hasher, _) :=
                  stream_restart self key total_bytes (resp_chunks response)
                                 w task [] downloaded in
                match resp_error response with
                | Some e => (w, task, Raise (exn_of_net e))
                | None => finish_transfer w task key hasher
                end
            end
        end
      else if (resp_status response =? 200) || (resp_status response =? 206) then
        let total_bytes := default 0 (resp_content_length response) + downloaded in
        let task := with_total_bytes task (Some total_bytes) in
        let w := open_for_write key (0 <? downloaded) w in
        let '(w, task, hasher, _) :=
          stream_body self key total_bytes (resp_chunks response)
                      w task [] downloaded in
        match resp_error response with
        | Some e => (w, task, Raise (exn_of_net e))
        | None => finish_transfer w task key hasher
        end
      else
        (w, task,
         Raise (ClientError (response_error_text (resp_status response)
                                                 (source_url task))))
  end.

(** The task object is mutated in place, so the task as it stands when the
    call ends is returned next to the result, also when the call raises. *)
Definition _perform_download (self : AsyncDownloader) (w : World)
    (task : DownloadTask) (dest_path : Path)
  : World * DownloadTask * result DownloadTask :=
  let key := str dest_path in
  let task := with_status task DOWNLOADING in
  let w := ledger_update self w task in
  let '(task, range) :=
    match files w !! key with
    | Some content =>
        if 0 <? len content
        then (with_bytes_downloaded task (len content), Some (len content))
        else (task, None)
    | None => (task, None)
    end in
  let downloaded := bytes_downloaded task in
  match transfer self w task key range downloaded with
  | (w, task, Ok _) =>
      let w := ledger_update self w task in
      (w, task, Ok task)
  | (w, task, Raise TimeoutError) =>
      let task := with_error_message (with_status task FAILED) (Some "Timeout") in
      (w, task, Raise (DownloadTimeoutError (source_url task) (timeout self)))
  | (w, task, Raise (ClientError msg)) =>
      let task := with_error_message (with_status task FAILED) (Some msg) in
      (w, task, Raise (DownloadFailedError (source_url task) msg (retry_count task)))
  | (w, task, Raise e) => (w, task, Raise e)
  end.

(** ** AsyncDownloader._download_with_retry *)

(** [retry_if_exception_type((aiohttp.ClientError, asyncio.TimeoutError))],
    also the classes named by the [except] clause of the function. *)
Definition is_transient (e : exn) : bool :=
  match e with
  | ClientError _ | TimeoutError => true
  | _ => false
  end.

(** The function under the decorator. *)
Definition download_attempt (self : AsyncDownloader) (w : World)
    (task : DownloadTask) (dest_path : Path)
  : World * DownloadTask * result DownloadTask :=
  match _perform_download self w task dest_path with
  | (w, task, Raise e) =>
      if is_transient e then
        let task := with_retry_count task (retry_count task + 1) in
        let task := with_error_message task (Some (str_exn e)) in
        if max_retries self <=? retry_count task then
          let task := with_status task FAILED in
          (w, task, Ok task)
        else (w, task, Raise e)
      else (w, task, Raise e)
  | returned => returned
  end.

(** tenacity's [retry(..., stop=stop_after_attempt(n), reraise=True)] around
    [f], [more] being the attempts left after the one that is made now.  The
    call is repeated with the same arguments, the task object among them;
    the [wait_exponential] sleeps between attempts are not modelled. *)
Fixpoint retrying (more : nat)
    (f : World -> DownloadTask -> World * DownloadTask * result DownloadTask)
    (w : World) (task : DownloadTask)
  : World * DownloadTask * result DownloadTask :=
  match f w task with
  | (w', task', Raise e) =>
      if is_transient e then
        match more with
        | O => (w', task', Raise e)
        | S more' => retrying more' f w' task'
        end
      else (w', task', Raise e)
  | returned => returned
  end.

Definition stop_after_attempt : nat := 3.

Definition _download_with_retry (self : AsyncDownloader) (w : World)
    (task : DownloadTask) (dest_path : Path)
  : World * DownloadTask * result DownloadTask :=
  retrying (stop_after_attempt - 1)
           (fun w task => download_attempt self w task dest_path) w task.

(** ** AsyncDownloader.download

    The body that runs under [async with self._semaphore]; the semaphore
    itself is the subject of [Gate] below.  Next to the result stands the
    task object the call was working on when it ended, if it had one.
    [dest_path.parent.mkdir(parents=True, exist_ok=True)], between the
    sanitizer and the lookup, creates directories only, which the world
    does not track. *)
Definition download_traced (self : AsyncDownloader) (w : World) (url : string)
    (dest_path : Path) : World * option DownloadTask * result DownloadTask :=
  match sanitize_path (cwd self) dest_path (downloads_dir self) with
  | Raise e => (w, None, Raise e)
  | Ok dest_path =>
      let proceed (w : World) (task : DownloadTask) :=
        match _download_with_retry self w task dest_path with
        | (w, task, Ok returned) =>
            (ledger_update self w returned, Some task, Ok returned)
        | (w, task, Raise e) => (w, Some task, Raise e)
        end in
      match get_task_by_url url (ledger w) with
      | Raise e => (w, None, Raise e)
      | Ok (Some existing) =>
          if status_eqb (status existing) COMPLETED then
            (w, Some existing, Ok existing)
          else if status_eqb (status existing) DUPLICATE then
            (w, Some existing, Ok existing)
          else proceed w existing
      | Ok None =>
          match create_task (clock self) url (str dest_path) (ledger w) with
          | (rows, Ok task) => proceed (set_ledger w rows) task
          | (rows, Raise e) => (set_ledger w rows, None, Raise e)
          end
      end
  end.

Definition download (self : AsyncDownloader) (w : World) (url : string)
    (dest_path : Path) : World * result DownloadTask :=
  let '(w, _, r) := download_traced self w url dest_path in (w, r).

(** ** The concurrency gate: [asyncio.Semaphore(settings.downloader.max_concurrent)]

    Several [download] calls share one downloader.  A call waits in
    [async with self._semaphore] until the semaphore's value is positive and
    takes a slot; it holds the slot while its body runs and gives it back
    when the body is left, by [return] or by an exception alike.  The body's
    effects on the shared world are applied at the moment the call leaves. *)
Module Gate.

Inductive phase : Type :=
| Queued
| Streaming
| Exited (r : result DownloadTask).

Record call : Type := mkCall {
  call_url : string;
  call_dest : Path;
  call_phase : phase
}.

Record state : Type := mkState {
  value : Z;
  calls : list call;
  world : World
}.

Definition is_streaming (c : call) : bool :=
  match call_phase c with
  | Streaming => true
  | _ => false
  end.

Definition streaming (s : state) : nat :=
  length (List.filter is_streaming (calls s)).

Definition init (self : AsyncDownloader) (w : World)
    (cs : list (string * Path)) : state :=
  mkState (max_concurrent self)
          (map (fun c => mkCall (fst c) (snd c) Queued) cs) w.

Inductive step (self : AsyncDownloader) (s : state) : state -> Prop :=
| step_acquire (i : nat) (c : call) :
    calls s !! i = Some c ->
    call_phase c = Queued ->
    0 < value s ->
    step self s
         (mkState (value s - 1)
                  (<[i := mkCall (call_url c) (call_dest c) Streaming]> (calls s))
                  (world s))
| step_leave (i : nat) (c : call) (w' : World) (r : result DownloadTask) :
    calls s !! i = Some c ->
    call_phase c = Streaming ->
    download self (world s) (call_url c) (call_dest c) = (w', r) ->
    step self s
         (mkState (value s + 1)
                  (<[i := mkCall (call_url c) (call_dest c) (Exited r)]> (calls s))
                  w').

Inductive reachable (self : AsyncDownloader) (s0 : state) : state -> Prop :=
| reach_init : reachable self s0 s0
| reach_step (s s' : state) :
    reachable self s0 s -> step self s s' -> reachable self s0 s'.

End Gate.

(** ** backend/services/downloader.py: the second downloader *)
Module Services.

Inductive DownloadStatus : Type :=
| PENDING | DOWNLOADING | PAUSED | COMPLETED | FAILED.

Record DownloadTask : Type := mkTask {
  url : string;
  dest_path : Path;
  status : DownloadStatus;
  retries : Z;
  error_message : option string;
  sha256_hash : option string
}.

(** The files on disk, the requests issued (with the start of the [Range]
    header when one was sent) and the downloader's [_paused] set.
    [_active_downloads] is never written by the class and stays empty. *)
Record State : Type := mkState {
  files : gmap string (list byte);
  requests : list Request;
  _paused : gset string
}.

(** Truth value of a [str]. *)
Definition truthy (s : string) : bool :=
  match s with
  | EmptyString => false
  | String _ _ => true
  end.

(** [iter(lambda: f.read(n), b"")]: the reads up to the first empty one. *)
Fixpoint read_chunks (fuel n : nat) (content : list byte) : list (list byte) :=
  match fuel, content with
  | S fuel', _ :: _ => take n content :: read_chunks fuel' n (drop n content)
  | _, _ => []
  end.

Definition _compute_file_hash (fs : gmap string (list byte)) (path : Path)
  : result string :=
  match fs !! str path with
  | None => Raise (FileNotFoundError (str path))
  | Some content =>
      let sha256 :=
        fold_left (fun fed chunk => fed ++ chunk)
                  (read_chunks (length content) (Z.to_nat 8192) content) [] in
      Ok (SHA256.hexdigest sha256)
  end.

(** [pause(url)] *)
Definition pause (st : State) (u : string) : State :=
  mkState (files st) (requests st) ({[u]} ∪ _paused st).

(** The chunk loop; stops at the first chunk that finds the URL paused. *)
Fixpoint write_chunks (u key : string) (chunks : list (list byte)) (st : State)
  : State :=
  match chunks with
  | [] => st
  | chunk :: rest =>
      if decide (u ∈ _paused st) then pause st u
      else
        write_chunks u key rest
          (mkState (<[key := default [] (files st !! key) ++ chunk]> (files st))
                   (requests st) (_paused st))
  end.

(** What the [try] block does from the request on; [Raise] is an exception
    that the [except Exception] clause will see. *)
Definition fetch (server : nat -> Request -> Outcome) (st : State)
    (u : string) (path : Path) (range : option Z) : State * result string :=
  let key := str path in
  let req := mkRequest u range in
  let out := server (length (requests st)) req in
  let st := mkState (files st) (requests st ++ [req]) (_paused st) in
  match out with
  | Refused e => (st, Raise (exn_of_net e))
  | Responded response =>
      if 400 <=? resp_status response then
        (st, Raise (ClientError (response_error_text (resp_status response) u)))
      else
        let old :=
          match range with
          | Some _ => default [] (files st !! key)
          | None => []
          end in
        let st := mkState (<[key := old]> (files st)) (requests st) (_paused st) in
        let st := write_chunks u key (resp_chunks response) st in
        match resp_error response with
        | Some e => (st, Raise (exn_of_net e))
        | None => (st, _compute_file_hash (files st) path)
        end
  end.

(** [download(url, dest_path)] for a call that is not cancelled while it
    runs (on [asyncio.CancelledError] the source returns the task PAUSED)
    and whose [dest_path.parent.mkdir] succeeds; directories are not part
    of the state. *)
Definition download (server : nat -> Request -> Outcome) (st : State)
    (u : string) (path : Path) : State * DownloadTask :=
  let task := mkTask u path DOWNLOADING 0 None None in
  let failed (e : exn) := mkTask u path FAILED 0 (Some (str_exn e)) None in
  let completed (h : string) := mkTask u path COMPLETED 0 None (Some h) in
  let run (range : option Z) :=
    match fetch server st u path range with
    | (st, Ok h) => (st, completed h)
    | (st, Raise e) => (st, failed e)
    end in
  match files st !! str path with
  | Some content =>
      match _compute_file_hash (files st) path with
      | Raise e => (st, failed e)
      | Ok existing_hash =>
          if truthy existing_hash then (st, completed existing_hash)
          else run (Some (len content))
      end
  | None => run None
  end.

End Services.

(** ** Vocabulary of the statements, and the worlds they are tried on *)

(** The requests that a call adds to those issued before it. *)
Definition new_requests (before after : list Request) : list Request :=
  drop (length before) after.

Definition partial_state : Services.State :=
  Services.mkState {[ "/data/downloads/a.bin" := bytes "AB" ]} [] ∅.

(** [p] is [base] or lies below it: same root, and the components of
    [base], as configured, lead the components of [p]. *)
Definition at_or_below (base p : Path) : Prop :=
  is_absolute p = is_absolute base
  /\ exists rest : list string, parts p = parts base ++ rest.

Definition downloads : Path := mkPath true ["data"; "downloads"].

(** A downloader with the default settings of [DownloaderConfig]. *)
Definition downloader (srv : nat -> Request -> Outcome) : AsyncDownloader :=
  mkDownloader 5 8192 300 3 downloads false ["app"] 1000 srv.

Definition completed_row : Row :=
  mkRow 1 "http://x/a" "/data/downloads/a.bin" COMPLETED 4 (Some 4)
        (Some (SHA256.hexdigest (bytes "ABCD"))) 0 None 900 950.

Definition one_slot : AsyncDownloader :=
  mkDownloader 1 8192 300 3 downloads false ["app"] 1000
               (fun _ _ => Refused NetTimeout).

Definition two_calls : list (string * Path) :=
  [("http://x/y", mkPath false [".."; ".."; "etc"; "passwd"]);
   ("http://x/a", mkPath false ["a.bin"])].

(** The COMPLETED row with digest [h] that belongs to another URL than
    [url], if the ledger has one: the first in rowid order. *)
Definition duplicate_of (h url : string) (rows : list Row) : option Row :=
  List.find (fun r => hash_is h (col_sha256_hash r)
                      && status_eqb (col_status r) COMPLETED
                      && negb (String.eqb (col_source_url r) url)) rows.

(** The [Range] header that a call sends: the size of the file found at the
    destination, when there is one and it is not empty. *)
Definition range_header (w : World) (key : string) : option Z :=
  match files w !! key with
  | Some content => if 0 <? len content then Some (len content) else None
  | None => None
  end.

Definition refusing : AsyncDownloader :=
  downloader (fun _ _ => Refused (NetClientError "Cannot connect to host")).

Definition fresh_task : DownloadTask :=
  mkTask (Some 1) "http://x/a" "/data/downloads/a.bin" PENDING 0 None None 0
         None None None.

Definition empty_world : World := mkWorld [] ∅ [] [].

(** The row that [create_task] inserts for [url]. *)
Definition created_row (now : Z) (url filepath : string) (rows : list Row) : Row :=
  mkRow (next_rowid rows) url filepath PENDING 0 None None 0 None now now.

Definition created_task (url filepath : string) (rows : list Row) : DownloadTask :=
  mkTask (Some (next_rowid rows)) url filepath PENDING 0 None None 0 None None None.

(** A server that ignores the range and sends the whole resource with 200. *)
Definition whole_resource (n : nat) (req : Request) : Outcome :=
  Responded (mkResponse 200 (Some 4) [bytes "ABCD"] None).

Definition world_with_partial : World :=
  mkWorld [mkRow 1 "http://x/a" "/data/downloads/a.bin" DOWNLOADING 2 (Some 4)
                 None 0 None 900 950]
          {[ "/data/downloads/a.bin" := bytes "AB" ]} [] [].

Definition resumed_task : DownloadTask :=
  mkTask (Some 1) "http://x/a" "/data/downloads/a.bin" DOWNLOADING 2 (Some 4)
         None 0 None (Some 900) (Some 950).

(** A server that answers a range request with 416 and any other request
    with the resource in two chunks. *)
Definition not_satisfiable (n : nat) (req : Request) : Outcome :=
  match req_range req with
  | Some _ => Responded (mkResponse 416 None [] None)
  | None => Responded (mkResponse 200 (Some 4) [bytes "AB"; bytes "CD"] None)
  end.

(** A server that honours the range and continues with the missing bytes. *)
Definition continuing (n : nat) (req : Request) : Outcome :=
  match req_range req with
  | Some 2 => Responded (mkResponse 206 (Some 2) [bytes "CD"] None)
  | _ => Responded (mkResponse 200 (Some 4) [bytes "ABCD"] None)
  end.

(** A server that sends the same four bytes whatever is asked. *)
Definition same_content (n : nat) (req : Request) : Outcome :=
  Responded (mkResponse 200 (Some 4) [bytes "AB"; bytes "CD"] None).

Definition second_task : DownloadTask :=
  mkTask (Some 2) "http://x/b" "/data/downloads/b.bin" PENDING 0 None None 0
         None None None.

Definition world_with_a_and_b : World :=
  mkWorld [completed_row;
           mkRow 2 "http://x/b" "/data/downloads/b.bin" PENDING 0 None None 0
                 None 1000 1000]
          {[ "/data/downloads/a.bin" := bytes "ABCD" ]} [] [].

(** ** get_status of the second downloader, and further vocabulary *)

(** [get_status] of the second downloader.  The class never puts a key
    into [_active_downloads], so the test on it is never true. *)
Definition services_get_status (st : Services.State) (u : string)
  : option Services.DownloadStatus :=
  if decide (u ∈ Services._paused st) then Some Services.PAUSED
  else Some Services.PENDING.

(** The columns of a row that no statement of the ledger rewrites. *)
Definition row_key (r : Row) : Z * string * string * Z :=
  (col_id r, col_source_url r, col_local_filepath r, col_created_at r).


(** A server that breaks the stream after two bytes. *)
Definition breaking (n : nat) (req : Request) : Outcome :=
  Responded (mkResponse 200 (Some 4) [bytes "AB"] (Some (NetClientError "Connection reset"))).

(** A progress snapshot of a transfer from [url] under way. *)
Definition snapshot_of (url : string) (p : DownloadProgress) : Prop :=
  progress_status p = DOWNLOADING
  /\ progress_url p = url
  /\ exists total, progress_total_bytes p = Some total /\ 0 < total.

(** The exceptions that the body of the [try] statement can raise. *)
Definition raised_in_transfer (key : string) (e : exn) : Prop :=
  (exists msg, e = ClientError msg) \/ e = TimeoutError
  \/ e = FileNotFoundError key \/ e = AttributeError "NamedTupleRow".

(** How a call of [_perform_download] for [task] ends: with one of the two
    typed errors, the task object marked FAILED, or with an exception that
    no [except] clause names, the task object still DOWNLOADING. *)
Definition raised_by_perform (self : AsyncDownloader) (task task' : DownloadTask)
    (key : string) (e : exn) : Prop :=
  (exists reason,
     e = DownloadFailedError (source_url task) reason (retry_count task)
     /\ status task' = FAILED /\ error_message task' = Some reason)
  \/ (e = DownloadTimeoutError (source_url task) (timeout self)
      /\ status task' = FAILED /\ error_message task' = Some "Timeout")
  \/ ((e = FileNotFoundError key \/ e = AttributeError "NamedTupleRow")
      /\ status task' = DOWNLOADING /\ error_message task' = error_message task).

(** A ledger that holds a FAILED row from an earlier life. *)
Definition world_with_failed : World :=
  mkWorld [mkRow 1 "http://x/old" "/data/downloads/old.bin" FAILED 0 None None 3
                 (Some "gone") 900 950] ∅ [] [].

(** The bytes that a transfer starts from: the size of the file found at
    the destination if it is not empty, else the count the task carries. *)
Definition start_bytes (w : World) (task : DownloadTask) (key : string) : Z :=
  match range_header w key with
  | Some n => n
  | None => bytes_downloaded task
  end.

(** The exception that the request of the second downloader raises before
    any byte is read: the connection error, or [raise_for_status] on a
    status from 400 on. *)
Definition request_error (out : Outcome) (u : string) : option exn :=
  match out with
  | Refused e => Some (exn_of_net e)
  | Responded response =>
      if 400 <=? resp_status response
      then Some (ClientError (response_error_text (resp_status response) u))
      else None
  end.

Definition services_fresh : Services.State := Services.mkState ∅ [] ∅.

Definition services_paused : Services.State :=
  Services.mkState ∅ [] {[ "http://x/a" ]}.

(** A server that has nothing under any URL. *)
Definition not_found (n : nat) (req : Request) : Outcome :=
  Responded (mkResponse 404 None [] None).

(** * Properties *)

(** ** hashlib and file reading *)

Lemma hexdigest_truthy (fed : list byte) :
  Services.truthy (SHA256.hexdigest fed) = true.
Proof.
  unfold SHA256.hexdigest.
  destruct (SHA256.digest fed) as [[[[[[[a b] c] d] e] f] g] h].
  reflexivity.
Qed.

Lemma fold_feed (chunks : list (list byte)) (fed : list byte) :
  fold_left (fun fed chunk => fed ++ chunk) chunks fed = fed ++ concat chunks.
Proof.
  revert fed. induction chunks as [|c cs IH]; intros fed; simpl.
  - by rewrite app_nil_r.
  - by rewrite IH, app_assoc.
Qed.

Lemma read_chunks_concat (fuel n : nat) (content : list byte) :
  (0 < n)%nat -> (length content <= fuel)%nat ->
  concat (Services.read_chunks fuel n content) = content.
Proof.
  intros Hn. revert content.
  induction fuel as [|fuel IH]; intros content Hlen.
  - destruct content; [done | simpl in Hlen; lia].
  - destruct content as [|b rest]; [done|].
    cbn [Services.read_chunks concat].
    rewrite IH.
    + apply take_drop.
    + rewrite length_drop. simpl in *. lia.
Qed.

(** Reading a file in 8192-byte pieces hashes the whole file. *)
Lemma compute_file_hash_whole (fs : gmap string (list byte)) (path : Path)
    (content : list byte) :
  fs !! str path = Some content ->
  Services._compute_file_hash fs path = Ok (SHA256.hexdigest content).
Proof.
  intros Hf. unfold Services._compute_file_hash. rewrite Hf.
  rewrite fold_feed, read_chunks_concat; [done | lia | done].
Qed.

(** ** The second downloader *)

Lemma write_chunks_requests (u key : string) (chunks : list (list byte))
    (st : Services.State) :
  Services.requests (Services.write_chunks u key chunks st) = Services.requests st.
Proof.
  revert st. induction chunks as [|c cs IH]; intros st; simpl; [done|].
  destruct (decide (u ∈ Services._paused st)); [done|].
  by rewrite IH.
Qed.

Lemma fetch_requests (server : nat -> Request -> Outcome) (st : Services.State)
    (u : string) (path : Path) (range : option Z) :
  Services.requests (fst (Services.fetch server st u path range))
  = Services.requests st ++ [mkRequest u range].
Proof.
  unfold Services.fetch.
  destruct (server _ _) as [e | response]; [done|].
  destruct (400 <=? resp_status response); [done|].
  destruct (resp_error response); simpl; by rewrite write_chunks_requests.
Qed.

Lemma services_download_requests (server : nat -> Request -> Outcome)
    (st : Services.State) (u : string) (path : Path) :
  new_requests (Services.requests st)
               (Services.requests (fst (Services.download server st u path)))
  = [] \/
  new_requests (Services.requests st)
               (Services.requests (fst (Services.download server st u path)))
  = [mkRequest u None].
Proof.
  unfold Services.download, new_requests.
  destruct (Services.files st !! str path) as [content|] eqn:Hf.
  - rewrite (compute_file_hash_whole _ _ _ Hf), hexdigest_truthy.
    left. simpl. by rewrite drop_all.
  - right.
    pose proof (fetch_requests server st u path None) as Hr.
    destruct (Services.fetch server st u path None) as [st' [h|e]];
      simpl in *; rewrite Hr; by rewrite drop_app_length.
Qed.

(** C10: in the second downloader, a call whose destination already exists
    as a file (empty and partial files included) returns a COMPLETED task
    whose sha256_hash is the digest of the file as it stands, leaves the
    files and the request log as they were, so no HTTP request is issued;
    and no call at all ever sends a Range header: the resume branch cannot
    be reached. *)
Theorem C10_existing_file_is_completed (server : nat -> Request -> Outcome)
    (st : Services.State) (u : string) (path : Path) (content : list byte) :
  Services.files st !! str path = Some content ->
  Services.download server st u path
  = (st, Services.mkTask u path Services.COMPLETED 0 None
                         (Some (SHA256.hexdigest content)))
  /\ (forall (st' : Services.State) (u' : string) (path' : Path) (req : Request),
        req ∈ new_requests (Services.requests st')
                (Services.requests (fst (Services.download server st' u' path'))) ->
        req_range req = None).
Proof.
  intros Hf. split.
  - unfold Services.download. rewrite Hf.
    by rewrite (compute_file_hash_whole _ _ _ Hf), hexdigest_truthy.
  - intros st' u' path' req Hin.
    destruct (services_download_requests server st' u' path') as [H|H];
      rewrite H in Hin.
    + by apply elem_of_nil in Hin.
    + apply list_elem_of_singleton in Hin. by subst req.
Qed.

Lemma C10_witness :
  Services.download (fun _ _ => Refused NetTimeout) partial_state "http://x/a"
                    (mkPath true ["data"; "downloads"; "a.bin"])
  = (partial_state,
     Services.mkTask "http://x/a" (mkPath true ["data"; "downloads"; "a.bin"])
                     Services.COMPLETED 0 None
                     (Some (SHA256.hexdigest (bytes "AB")))).
Proof.
  apply (C10_existing_file_is_completed (fun _ _ => Refused NetTimeout)
           partial_state "http://x/a"
           (mkPath true ["data"; "downloads"; "a.bin"]) (bytes "AB")).
  reflexivity.
Defined.

(** ** The ledger *)

Lemma update_task_lookup (now : Z) (task : DownloadTask) (rows : list Row)
    (i : nat) :
  update_task now task rows !! i = update_row now task <$> rows !! i.
Proof. unfold update_task. apply list_lookup_fmap. Qed.

Lemma update_row_other (now : Z) (task : DownloadTask) (r : Row) :
  col_source_url r <> source_url task -> update_row now task r = r.
Proof.
  intros Hne. unfold update_row.
  destruct (String.eqb_spec (col_source_url r) (source_url task)); congruence.
Qed.

Lemma update_row_url (now : Z) (task : DownloadTask) (r : Row) :
  col_source_url (update_row now task r) = col_source_url r.
Proof. unfold update_row. by destruct (String.eqb _ _). Qed.

(** C9: update_task keeps the number and order of the rows; a row for
    another URL is left as it was; in a row for the task's URL the columns
    id, source_url, local_filepath and created_at are left as they were and
    status, bytes_downloaded, total_bytes, sha256_hash, retry_count,
    error_message and updated_at are the ones written. *)
Theorem C9_update_task_frame (now : Z) (task : DownloadTask) (rows : list Row) :
  length (update_task now task rows) = length rows
  /\ forall (i : nat) (r : Row),
       rows !! i = Some r ->
       exists r' : Row,
         update_task now task rows !! i = Some r'
         /\ col_id r' = col_id r
         /\ col_source_url r' = col_source_url r
         /\ col_local_filepath r' = col_local_filepath r
         /\ col_created_at r' = col_created_at r
         /\ (col_source_url r <> source_url task -> r' = r)
         /\ (col_source_url r = source_url task ->
             col_status r' = status task
             /\ col_bytes_downloaded r' = bytes_downloaded task
             /\ col_total_bytes r' = total_bytes task
             /\ col_sha256_hash r' = sha256_hash task
             /\ col_retry_count r' = retry_count task
             /\ col_error_message r' = error_message task
             /\ col_updated_at r' = now).
Proof.
  split.
  - unfold update_task. apply length_fmap.
  - intros i r Hi. exists (update_row now task r).
    rewrite update_task_lookup, Hi. split; [done|].
    unfold update_row.
    destruct (String.eqb_spec (col_source_url r) (source_url task)) as [He|Hne];
      simpl; repeat split; try done; intros; congruence.
Qed.

(** ** The path sanitizer *)

Lemma prefix_app (n rest : string) : String.prefix n (n +:+ rest) = true.
Proof.
  induction n as [|c n IH]; simpl.
  - by destruct rest.
  - destruct (Ascii.ascii_dec c c); [exact IH | congruence].
Qed.

Lemma prefix_app_l (n h rest : string) :
  String.prefix n h = true -> String.prefix n (h +:+ rest) = true.
Proof.
  revert h. induction n as [|c n IH]; intros h; simpl.
  - intros _. by destruct (h +:+ rest).
  - destruct h as [|d h]; simpl; [done|].
    destruct (Ascii.ascii_dec c d); [apply IH | done].
Qed.

Lemma contains_prefix (n h : string) :
  String.prefix n h = true -> contains n h = true.
Proof. intros H. destruct h; simpl in *; rewrite H; done. Qed.

Lemma contains_app_r (n a h : string) :
  contains n h = true -> contains n (a +:+ h) = true.
Proof.
  intros H. induction a as [|c a IH]; simpl; [done|].
  rewrite IH. apply orb_true_r.
Qed.

Lemma contains_app_l (n h rest : string) :
  contains n h = true -> contains n (h +:+ rest) = true.
Proof.
  induction h as [|c h IH]; simpl.
  - rewrite orb_false_r. intros H. apply contains_prefix.
    by apply (prefix_app_l n "" rest).
  - intros H. apply orb_true_iff in H as [H|H].
    + apply (prefix_app_l n (String c h) rest) in H. simpl in H.
      rewrite H. done.
    + rewrite (IH H). apply orb_true_r.
Qed.

Lemma contains_self (n : string) : contains n n = true.
Proof.
  apply contains_prefix. pose proof (prefix_app n "") as H.
  revert H. clear. induction n as [|c n IH]; simpl; [done|].
  destruct (Ascii.ascii_dec c c); [exact IH | congruence].
Qed.

Lemma contains_concat (sep x : string) (ps : list string) :
  In x ps -> contains x (String.concat sep ps) = true.
Proof.
  induction ps as [|p ps IH]; [done|].
  intros [->|Hin].
  - destruct ps as [|q ps]; simpl.
    + apply contains_self.
    + apply contains_app_l, contains_self.
  - destruct ps as [|q ps]; [done|].
    change (String.concat sep (p :: q :: ps))
      with (p +:+ sep +:+ String.concat sep (q :: ps)).
    by apply contains_app_r, contains_app_r, IH.
Qed.

(** A path with a parent-directory segment has [..] in its string. *)
Lemma parent_segment_in_str (p : Path) :
  In ".." (parts p) -> contains ".." (str p) = true.
Proof.
  intros Hin. unfold str.
  destruct (is_absolute p), (parts p) as [|q ps] eqn:Hp; try done.
  - apply (contains_app_r ".." "/"). by apply contains_concat.
  - by apply contains_concat.
Qed.

Lemma starts_with_spec (pre l : list string) :
  starts_with pre l = true <-> exists rest, l = pre ++ rest.
Proof.
  revert l. induction pre as [|x pre IH]; intros l; simpl.
  - split; [intros _; by exists l | done].
  - destruct l as [|y l].
    + split; [done | intros [rest H]; done].
    + rewrite andb_true_iff, IH. split.
      * intros [Hxy [rest ->]]. apply String.eqb_eq in Hxy as ->. by exists rest.
      * intros [rest H]. injection H as -> ->. split; [apply String.eqb_refl|].
        by exists rest.
Qed.

Lemma relative_to_spec (p base : Path) :
  (exists rel, relative_to p base = Ok rel) <-> at_or_below base p.
Proof.
  unfold relative_to, at_or_below.
  destruct (Bool.eqb (is_absolute p) (is_absolute base)) eqn:Hr; simpl.
  - apply eqb_prop in Hr.
    destruct (starts_with (parts base) (parts p)) eqn:Hs.
    + apply starts_with_spec in Hs. split; [done | eauto].
    + split; [intros [? ?]; done|]. intros [_ Hex].
      apply starts_with_spec in Hex. congruence.
  - split; [intros [? ?]; done|]. intros [He _].
    rewrite He, eqb_reflx in Hr. done.
Qed.

Lemma download_rejects (self : AsyncDownloader) (w : World) (url : string)
    (dest : Path) (e : exn) :
  sanitize_path (cwd self) dest (downloads_dir self) = Raise e ->
  download_traced self w url dest = (w, None, Raise e).
Proof. intros H. unfold download_traced. by rewrite H. Qed.

(** C6, amended: sanitize_path raises its ValueError exactly when the
    string of the requested path contains [..] anywhere (every path with a
    parent-directory segment does), or the path is absolute, or the resolved
    path is neither allowed_base nor below it, component by component on
    allowed_base as configured; download with such a path raises the same
    error and leaves ledger, files and request log as they were.  For every
    other path sanitize_path returns the resolved path, which may be
    allowed_base itself; being a function, it has no effect. *)
Theorem C6_sanitize_path_decides (self : AsyncDownloader) (w : World)
    (url : string) (dest : Path) :
  let base := downloads_dir self in
  let resolved := resolve (cwd self) (truediv base dest) in
  let rejected :=
    contains ".." (str dest) = true \/ is_absolute dest = true
    \/ ~ at_or_below base resolved in
  (rejected ->
   exists msg : string,
     sanitize_path (cwd self) dest base = Raise (ValueError msg)
     /\ download self w url dest = (w, Raise (ValueError msg)))
  /\ (~ rejected -> sanitize_path (cwd self) dest base = Ok resolved)
  /\ (In ".." (parts dest) -> rejected).
Proof.
  intros base resolved rejected. subst rejected.
  assert (Hdl : forall msg, sanitize_path (cwd self) dest base = Raise (ValueError msg) ->
                download self w url dest = (w, Raise (ValueError msg))).
  { intros msg H. unfold download.
    by rewrite (download_rejects self w url dest _ H). }
  unfold sanitize_path in *. fold base resolved in Hdl |- *.
  destruct (contains ".." (str dest)) eqn:Hc; simpl in *.
  { split; [eauto|]. split; [intros H; exfalso; apply H; by left | by left]. }
  destruct (is_absolute dest) eqn:Ha; simpl in *.
  { split; [eauto|]. split; [intros H; exfalso; apply H; auto | auto]. }
  pose proof (relative_to_spec resolved base) as Hspec.
  destruct (relative_to resolved base) as [rel|e] eqn:Hrel.
  - assert (Hin : at_or_below base resolved) by (apply Hspec; eauto).
    split; [|split].
    + intros [H|[H|H]]; done.
    + done.
    + intros Hp. apply parent_segment_in_str in Hp. congruence.
  - split; [eauto|]. split.
    + intros H. exfalso. apply H. right. right. intros Hin.
      apply Hspec in Hin as [rel Hin]. done.
    + intros Hp. apply parent_segment_in_str in Hp. congruence.
Qed.

(** The three cases of tests/test_downloader.py, TestSanitizePath. *)
Example test_valid_path_within_base :
  sanitize_path ["app"] (mkPath false ["file.pdf"]) (mkPath true ["data"; "downloads"])
  = Ok (mkPath true ["data"; "downloads"; "file.pdf"]).
Proof. reflexivity. Qed.

Example test_path_traversal_blocked :
  sanitize_path ["app"] (mkPath false [".."; ".."; ".."; "etc"; "passwd"])
                (mkPath true ["data"; "downloads"])
  = Raise (ValueError "Path traversal attempt detected: ../../../etc/passwd").
Proof. reflexivity. Qed.

Example test_absolute_path_blocked :
  sanitize_path ["app"] (mkPath true ["etc"; "passwd"])
                (mkPath true ["data"; "downloads"])
  = Raise (ValueError "Path traversal attempt detected: /etc/passwd").
Proof. reflexivity. Qed.

(** With the default settings the allowed base is the relative path
    [data/downloads]: the resolved path is absolute, [relative_to] compares
    it with the base as configured, and every destination is rejected. *)
Example relative_base_rejects_all :
  sanitize_path ["app"] (mkPath false ["file.pdf"]) (mkPath false ["data"; "downloads"])
  = Raise (ValueError "Path file.pdf escapes allowed directory data/downloads").
Proof. reflexivity. Qed.

(** C6 as stated fails both ways.  The relative path [a..b] has no
    parent-directory segment and resolves to a file directly inside the
    allowed base, yet it is rejected; the relative path [.] resolves to the
    allowed base itself, which is not strictly within it, yet it is
    returned. *)
Lemma C6_counterexample :
  (is_absolute (mkPath false ["a..b"]) = false
   /\ ~ In ".." (parts (mkPath false ["a..b"]))
   /\ resolve ["app"] (truediv (mkPath true ["data"; "downloads"])
                               (mkPath false ["a..b"]))
      = mkPath true ["data"; "downloads"; "a..b"]
   /\ sanitize_path ["app"] (mkPath false ["a..b"])
                    (mkPath true ["data"; "downloads"])
      = Raise (ValueError "Path traversal attempt detected: a..b"))
  /\ (str (mkPath false []) = "."
      /\ sanitize_path ["app"] (mkPath false [])
                       (mkPath true ["data"; "downloads"])
         = Ok (mkPath true ["data"; "downloads"])).
Proof.
  repeat split; try reflexivity.
  simpl. intros [H|H]; [discriminate H | exact H].
Qed.

(** ** The concurrency gate *)

Lemma count_insert (f : Gate.call -> bool) (l : list Gate.call) (i : nat)
    (x y : Gate.call) :
  l !! i = Some x ->
  (length (List.filter f (<[i := y]> l)) + (if f x then 1 else 0)
   = length (List.filter f l) + (if f y then 1 else 0))%nat.
Proof.
  revert i. induction l as [|a l IH]; intros i Hi; [done|].
  destruct i as [|i]; simpl in *.
  - injection Hi as ->. destruct (f x), (f y); simpl; lia.
  - specialize (IH i Hi). destruct (f a); simpl; lia.
Qed.

Lemma streaming_init (self : AsyncDownloader) (w : World)
    (cs : list (string * Path)) :
  Gate.streaming (Gate.init self w cs) = 0%nat.
Proof.
  unfold Gate.streaming, Gate.init. simpl.
  induction cs as [|c cs IH]; [done | exact IH].
Qed.

(** What one step does to the semaphore and to the number of calls that
    hold a slot. *)
Lemma step_effect (self : AsyncDownloader) (s s' : Gate.state) :
  Gate.step self s s' ->
  (0 < Gate.value s /\ Gate.value s' = Gate.value s - 1
   /\ Gate.streaming s' = S (Gate.streaming s))
  \/ (Gate.value s' = Gate.value s + 1
      /\ Gate.streaming s = S (Gate.streaming s')).
Proof.
  intros [i c Hi Hq Hv | i c w' r Hi Hq Hd]; unfold Gate.streaming; simpl.
  - left. repeat split; [done|].
    pose proof (count_insert Gate.is_streaming (Gate.calls s) i c
                  (Gate.mkCall (Gate.call_url c) (Gate.call_dest c) Gate.Streaming) Hi) as H.
    assert (Hc : Gate.is_streaming c = false)
      by (unfold Gate.is_streaming; by rewrite Hq).
    rewrite Hc in H. simpl in H. lia.
  - right. split; [done|].
    pose proof (count_insert Gate.is_streaming (Gate.calls s) i c
                  (Gate.mkCall (Gate.call_url c) (Gate.call_dest c) (Gate.Exited r)) Hi) as H.
    assert (Hc : Gate.is_streaming c = true)
      by (unfold Gate.is_streaming; by rewrite Hq).
    rewrite Hc in H. simpl in H. lia.
Qed.

(** The slots handed out and the slots left add up to the configured count. *)
Lemma gate_invariant (self : AsyncDownloader) (s0 s : Gate.state) :
  Gate.reachable self s0 s ->
  0 <= Gate.value s0 ->
  Gate.value s + Z.of_nat (Gate.streaming s)
  = Gate.value s0 + Z.of_nat (Gate.streaming s0)
  /\ 0 <= Gate.value s.
Proof.
  intros Hr H0. induction Hr as [|s s' Hr IH Hstep]; [done|].
  destruct IH as [IHsum IHpos].
  destruct (step_effect self s s' Hstep) as [(Hv & Hv' & Hn) | (Hv' & Hn)];
    rewrite Hv'; lia.
Qed.

(** C8: with the semaphore created for K = max_concurrent slots, in every
    state that calls to download can reach, at most K calls are inside the
    body (streaming); the semaphore's value is K less the number of calls
    inside, so a call that has left, by return or by exception, holds no
    slot; when K calls are inside, the only step possible is one of them
    leaving, so a further call enters only after that; and a call inside
    whose body raises can leave, which gives its slot back. *)
Theorem C8_gate_bound (self : AsyncDownloader) (w : World)
    (cs : list (string * Path)) (s : Gate.state) :
  0 <= max_concurrent self ->
  Gate.reachable self (Gate.init self w cs) s ->
  Z.of_nat (Gate.streaming s) <= max_concurrent self
  /\ Gate.value s = max_concurrent self - Z.of_nat (Gate.streaming s)
  /\ (Z.of_nat (Gate.streaming s) = max_concurrent self ->
      forall s', Gate.step self s s' ->
                 Gate.streaming s = S (Gate.streaming s'))
  /\ (forall (i : nat) (c : Gate.call) (w' : World) (e : exn),
        Gate.calls s !! i = Some c ->
        Gate.call_phase c = Gate.Streaming ->
        download self (Gate.world s) (Gate.call_url c) (Gate.call_dest c)
        = (w', Raise e) ->
        exists s', Gate.step self s s'
                   /\ Gate.value s' = Gate.value s + 1
                   /\ Gate.streaming s = S (Gate.streaming s')).
Proof.
  intros HK Hr.
  destruct (gate_invariant self _ s Hr) as [Hsum Hpos]; [done|].
  rewrite streaming_init in Hsum. simpl in Hsum.
  split; [lia|]. split; [lia|]. split.
  - intros Hfull s' Hstep.
    destruct (step_effect self s s' Hstep) as [(Hv & _) | (_ & Hn)]; [lia | done].
  - intros i c w' e Hi Hp Hd.
    pose proof (Gate.step_leave self s i c w' (Raise e) Hi Hp Hd) as Hstep.
    eexists. split; [exact Hstep|].
    destruct (step_effect self s _ Hstep) as [(_ & Hv & Hn) | (Hv & Hn)].
    + simpl in Hv. lia.
    + done.
Qed.

Lemma C8_witness :
  Z.of_nat
    (Gate.streaming
       (Gate.mkState 0
          [Gate.mkCall "http://x/y" (mkPath false [".."; ".."; "etc"; "passwd"])
                       Gate.Streaming;
           Gate.mkCall "http://x/a" (mkPath false ["a.bin"]) Gate.Queued]
          (mkWorld [] ∅ [] [])))
  <= 1.
Proof.
  apply (C8_gate_bound one_slot (mkWorld [] ∅ [] []) two_calls).
  - simpl. lia.
  - eapply Gate.reach_step; [apply Gate.reach_init|].
    apply (Gate.step_acquire one_slot (Gate.init one_slot (mkWorld [] ∅ [] []) two_calls)
             0 (Gate.mkCall "http://x/y" (mkPath false [".."; ".."; "etc"; "passwd"])
                            Gate.Queued)).
    + reflexivity.
    + reflexivity.
    + simpl. lia.
Defined.

(** ** The transfer engine: what a transfer does to the world *)

Lemma emit_progress_frame (self : AsyncDownloader) (w : World)
    (task : DownloadTask) (total : Z) :
  exists em, _emit_progress self w task total
             = mkWorld (ledger w) (files w) (requests w) em.
Proof.
  unfold _emit_progress.
  destruct (_progress_callback self && (0 <? total)); [eauto|].
  exists (emitted w). by destruct w.
Qed.

Lemma with_bytes_downloaded_twice (task : DownloadTask) (a b : Z) :
  with_bytes_downloaded (with_bytes_downloaded task a) b
  = with_bytes_downloaded task b.
Proof. reflexivity. Qed.

Lemma with_bytes_downloaded_same (task : DownloadTask) :
  with_bytes_downloaded task (bytes_downloaded task) = task.
Proof. by destruct task. Qed.

Lemma len_app (a b : list byte) : len (a ++ b) = len a + len b.
Proof. unfold len. rewrite length_app. lia. Qed.

(** The 200/206 loop appends the whole body to the open file, feeds the
    hasher with the body, and touches nothing of the task but
    bytes_downloaded. *)
Lemma stream_body_spec (self : AsyncDownloader) (key : string) (total : Z)
    (chunks : list (list byte)) (w : World) (task : DownloadTask)
    (hasher old : list byte) (downloaded : Z) :
  files w !! key = Some old ->
  exists (em : list DownloadProgress) (bd : Z),
    stream_body self key total chunks w task hasher downloaded
    = (mkWorld (ledger w) (<[key := old ++ concat chunks]> (files w))
               (requests w) em,
       with_bytes_downloaded task bd,
       hasher ++ concat chunks,
       downloaded + len (concat chunks)).
Proof.
  revert w task hasher old downloaded.
  induction chunks as [|chunk rest IH]; intros w task hasher old downloaded Hold.
  - exists (emitted w), (bytes_downloaded task). simpl.
    rewrite !app_nil_r, with_bytes_downloaded_same, Z.add_0_r.
    rewrite (insert_id _ _ _ Hold). by destruct w.
  - cbn [stream_body].
    destruct (emit_progress_frame self (write_chunk key chunk w)
                (with_bytes_downloaded task (downloaded + len chunk)) total)
      as [em Hem].
    rewrite Hem. unfold write_chunk, set_files. cbn [ledger files requests].
    rewrite Hold. change (default [] (Some old)) with old.
    edestruct (IH (mkWorld (ledger w) (<[key := old ++ chunk]> (files w))
                           (requests w) em)
                  (with_bytes_downloaded task (downloaded + len chunk))
                  (hasher ++ chunk) (old ++ chunk) (downloaded + len chunk))
      as (em' & bd & Heq).
    { cbn [files]. apply lookup_insert_eq. }
    exists em', bd. rewrite Heq. cbn [ledger files requests concat].
    rewrite insert_insert_eq, with_bytes_downloaded_twice, len_app.
    rewrite <- !app_assoc, Z.add_assoc. reflexivity.
Qed.

(** The 416 loop leaves the last chunk alone in the file, while the hasher
    is fed with the whole body. *)
Lemma stream_restart_spec (self : AsyncDownloader) (key : string) (total : Z)
    (chunks : list (list byte)) (w : World) (task : DownloadTask)
    (hasher : list byte) (downloaded : Z) :
  exists (em : list DownloadProgress) (bd : Z),
    stream_restart self key total chunks w task hasher downloaded
    = (mkWorld (ledger w)
               (match last chunks with
                | Some chunk => <[key := chunk]> (files w)
                | None => files w
                end)
               (requests w) em,
       with_bytes_downloaded task bd,
       hasher ++ concat chunks,
       downloaded + len (concat chunks)).
Proof.
  revert w task hasher downloaded.
  induction chunks as [|chunk rest IH]; intros w task hasher downloaded.
  - exists (emitted w), (bytes_downloaded task). simpl.
    rewrite !app_nil_r, with_bytes_downloaded_same, Z.add_0_r. by destruct w.
  - cbn [stream_restart].
    destruct (emit_progress_frame self (set_files w (<[key := chunk]> (files w)))
                (with_bytes_downloaded task (downloaded + len chunk)) total)
      as [em Hem].
    rewrite Hem. unfold set_files. cbn [ledger files requests].
    edestruct (IH (mkWorld (ledger w) (<[key := chunk]> (files w))
                           (requests w) em)
                  (with_bytes_downloaded task (downloaded + len chunk))
                  (hasher ++ chunk) (downloaded + len chunk))
      as (em' & bd & Heq).
    exists em', bd. rewrite Heq. cbn [ledger files requests concat].
    rewrite with_bytes_downloaded_twice, len_app.
    rewrite <- !app_assoc, Z.add_assoc.
    destruct rest as [|c2 rest']; [reflexivity|].
    rewrite last_cons_cons.
    destruct (last (c2 :: rest')) eqn:Hl.
    + by rewrite insert_insert_eq.
    + by apply last_None in Hl.
Qed.

Lemma duplicate_of_spec (h url : string) (rows : list Row) (r : Row) :
  duplicate_of h url rows = Some r ->
  In r rows /\ col_sha256_hash r = Some h /\ col_status r = COMPLETED
  /\ col_source_url r <> url.
Proof.
  intros H. apply find_some in H as [Hin Hp].
  apply andb_true_iff in Hp as [Hp Hu]. apply andb_true_iff in Hp as [Hh Hs].
  split; [done|]. repeat split.
  - unfold hash_is in Hh. destruct (col_sha256_hash r) as [h'|]; [|done].
    apply String.eqb_eq in Hh. by subst.
  - by destruct (col_status r).
  - intros He. rewrite He, String.eqb_refl in Hu. done.
Qed.

(** The reads of the ledger stop at the row factory, whatever the table
    holds and whatever is asked. *)
Lemma get_task_by_url_raises (url : string) (rows : list Row) :
  get_task_by_url url rows = Raise (AttributeError "NamedTupleRow").
Proof. reflexivity. Qed.

Lemma get_task_by_hash_raises (h : string) (rows : list Row) :
  get_task_by_hash h rows = Raise (AttributeError "NamedTupleRow").
Proof. reflexivity. Qed.

(** So the step after the body ends in that exception, with file and task
    as the chunk loop left them. *)
Lemma finish_transfer_raises (w : World) (task : DownloadTask) (key : string)
    (hasher : list byte) :
  finish_transfer w task key hasher
  = (w, task, Raise (AttributeError "NamedTupleRow")).
Proof. unfold finish_transfer. by rewrite get_task_by_hash_raises. Qed.

(** The 200/206 branch with a body that arrives whole. *)
Lemma transfer_streamed (self : AsyncDownloader) (w : World)
    (task : DownloadTask) (key : string) (range : option Z) (downloaded : Z)
    (response : Response) :
  server self (length (requests w)) (mkRequest (source_url task) range)
  = Responded response ->
  resp_status response = 200 \/ resp_status response = 206 ->
  resp_error response = None ->
  exists (em : list DownloadProgress) (bd : Z),
    transfer self w task key range downloaded
    = finish_transfer
        (mkWorld (ledger w)
           (<[key := (if 0 <? downloaded then default [] (files w !! key) else [])
                     ++ concat (resp_chunks response)]> (files w))
           (requests w ++ [mkRequest (source_url task) range]) em)
        (with_bytes_downloaded
           (with_total_bytes task
              (Some (default 0 (resp_content_length response) + downloaded))) bd)
        key (concat (resp_chunks response)).
Proof.
  intros Hsrv Hst Herr. unfold transfer, session_get. rewrite Hsrv.
  assert ((resp_status response =? 416) = false) as -> by (destruct Hst as [-> | ->]; done).
  assert (((resp_status response =? 200) || (resp_status response =? 206)) = true) as ->
    by (destruct Hst as [-> | ->]; done).
  rewrite Herr.
  set (w1 := open_for_write key (0 <? downloaded) _).
  set (old := if 0 <? downloaded then default [] (files w !! key) else []).
  assert (Hold : files w1 !! key = Some old).
  { unfold w1, open_for_write, set_files. cbn [files]. rewrite lookup_insert_eq.
    unfold old. by destruct (0 <? downloaded). }
  destruct (stream_body_spec self key
              (default 0 (resp_content_length response) + downloaded)
              (resp_chunks response) w1
              (with_total_bytes task
                 (Some (default 0 (resp_content_length response) + downloaded)))
              [] old downloaded Hold) as (em & bd & Heq).
  exists em, bd. rewrite Heq. cbn [app].
  unfold w1, open_for_write, set_files. cbn [ledger files requests].
  by rewrite insert_insert_eq.
Qed.

Lemma len_nonpos_nil (content : list byte) : (0 <? len content) = false -> content = [].
Proof.
  intros H. apply Z.ltb_ge in H. unfold len in H.
  destruct content; [done | simpl in H; lia].
Qed.

Lemma perform_download_pre (self : AsyncDownloader) (w : World)
    (task : DownloadTask) (key : string) :
  exists task2,
    (match files (ledger_update self w (with_status task DOWNLOADING)) !! key with
     | Some content =>
         if 0 <? len content
         then (with_bytes_downloaded (with_status task DOWNLOADING) (len content),
               Some (len content))
         else (with_status task DOWNLOADING, None)
     | None => (with_status task DOWNLOADING, None)
     end) = (task2, range_header w key)
    /\ task2 = with_bytes_downloaded (with_status task DOWNLOADING)
                                     (start_bytes w task key)
    /\ (if 0 <? bytes_downloaded task2 then default [] (files w !! key) else [])
       = default [] (files w !! key).
Proof.
  unfold start_bytes, range_header.
  change (files (ledger_update self w (with_status task DOWNLOADING)))
    with (files w).
  destruct (files w !! key) as [content|] eqn:Hf.
  - destruct (0 <? len content) eqn:Hl.
    + eexists. split; [reflexivity|]. split; [done|]. cbn. by rewrite Hl.
    + eexists. split; [reflexivity|].
      split; [by destruct task|].
      rewrite (len_nonpos_nil content Hl). cbn.
      by destruct (0 <? bytes_downloaded task).
  - eexists. split; [reflexivity|].
    split; [by destruct task|]. cbn.
    by destruct (0 <? bytes_downloaded task).
Qed.

(** A transfer answered 200 or 206 whose body arrives whole: one request is
    issued, with the range header of the file found; the body is appended
    to whatever the file held, under either status; then the digest lookup
    raises, which no except clause catches: the file stays, the task object
    stays DOWNLOADING without digest, and the ledger has what the first
    update wrote. *)
Lemma perform_download_streamed (self : AsyncDownloader) (w : World)
    (task : DownloadTask) (dest : Path) (response : Response) :
  server self (length (requests w))
         (mkRequest (source_url task) (range_header w (str dest)))
  = Responded response ->
  resp_status response = 200 \/ resp_status response = 206 ->
  resp_error response = None ->
  exists (w' : World) (task' : DownloadTask),
    _perform_download self w task dest
    = (w', task', Raise (AttributeError "NamedTupleRow"))
    /\ requests w'
       = requests w ++ [mkRequest (source_url task) (range_header w (str dest))]
    /\ ledger w' = update_task (clock self) (with_status task DOWNLOADING) (ledger w)
    /\ files w' = <[str dest := default [] (files w !! str dest)
                                ++ concat (resp_chunks response)]> (files w)
    /\ status task' = DOWNLOADING
    /\ source_url task' = source_url task
    /\ sha256_hash task' = sha256_hash task
    /\ total_bytes task'
       = Some (default 0 (resp_content_length response)
               + start_bytes w task (str dest)).
Proof.
  intros Hsrv Hst Herr. unfold _perform_download.
  destruct (perform_download_pre self w task (str dest)) as (task2 & -> & Ht2 & Hold).
  assert (Hu2 : source_url task2 = source_url task) by (by rewrite Ht2).
  assert (Hb2 : bytes_downloaded task2 = start_bytes w task (str dest))
    by (by rewrite Ht2).
  destruct (transfer_streamed self
              (ledger_update self w (with_status task DOWNLOADING)) task2 (str dest)
              (range_header w (str dest)) (bytes_downloaded task2) response)
    as (em & bd & Htr).
  { change (requests (ledger_update self w (with_status task DOWNLOADING)))
      with (requests w). by rewrite Hu2. }
  { done. }
  { done. }
  rewrite Htr, finish_transfer_raises.
  cbn [files requests ledger ledger_update set_ledger].
  rewrite Hold, Hu2, Hb2.
  eexists _, _. split; [reflexivity|].
  cbn. rewrite Ht2. cbn. repeat split; done.
Qed.

(** ** The retry wrapper *)

(** Whatever [_perform_download] raises, it is not one of the two classes
    that the retry decorator and the [except] clause around it look for:
    its own handlers have already turned those into typed errors. *)
Lemma perform_download_not_transient (self : AsyncDownloader) (w w' : World)
    (task task' : DownloadTask) (dest : Path) (e : exn) :
  _perform_download self w task dest = (w', task', Raise e) ->
  is_transient e = false.
Proof.
  unfold _perform_download.
  destruct (match files _ !! str dest with
            | Some content => _
            | None => _
            end) as [task2 range].
  destruct (transfer _ _ _ _ _ _) as [[w2 task3] [u | e2]].
  - intros H. discriminate H.
  - destruct e2; intros H; injection H as _ _ <-; reflexivity.
Qed.

(** So the wrapper is the wrapped function: one attempt, no count. *)
Lemma download_with_retry_is_perform (self : AsyncDownloader) (w : World)
    (task : DownloadTask) (dest : Path) :
  _download_with_retry self w task dest = _perform_download self w task dest.
Proof.
  assert (Ha : download_attempt self w task dest = _perform_download self w task dest).
  { unfold download_attempt.
    destruct (_perform_download self w task dest) as [[w' task'] [r | e]] eqn:Hp;
      [done|].
    by rewrite (perform_download_not_transient _ _ _ _ _ _ _ Hp). }
  unfold _download_with_retry. cbn [retrying stop_after_attempt Nat.sub].
  rewrite Ha.
  destruct (_perform_download self w task dest) as [[w' task'] [r | e]] eqn:Hp;
    [done|].
  by rewrite (perform_download_not_transient _ _ _ _ _ _ _ Hp).
Qed.

Lemma perform_download_refused (self : AsyncDownloader) (w : World)
    (task : DownloadTask) (dest : Path) (e : net_error) :
  server self (length (requests w))
         (mkRequest (source_url task) (range_header w (str dest)))
  = Refused e ->
  exists (task' : DownloadTask) (err : exn),
    _perform_download self w task dest
    = (mkWorld (update_task (clock self) (with_status task DOWNLOADING) (ledger w))
               (files w)
               (requests w ++ [mkRequest (source_url task) (range_header w (str dest))])
               (emitted w),
       task', Raise err)
    /\ err = match e with
             | NetClientError msg =>
                 DownloadFailedError (source_url task) msg (retry_count task)
             | NetTimeout => DownloadTimeoutError (source_url task) (timeout self)
             end
    /\ retry_count task' = retry_count task
    /\ status task' = FAILED
    /\ error_message task' = Some match e with
                                  | NetClientError msg => msg
                                  | NetTimeout => "Timeout"
                                  end.
Proof.
  intros Hsrv. unfold _perform_download, range_header in *.
  change (files (ledger_update self w (with_status task DOWNLOADING))) with (files w).
  destruct (files w !! str dest) as [content|].
  - destruct (0 <? len content); unfold transfer, session_get;
      cbn [source_url with_status with_bytes_downloaded requests ledger_update set_ledger];
      rewrite Hsrv; destruct e; cbn; eauto 10.
  - unfold transfer, session_get;
      cbn [source_url with_status with_bytes_downloaded requests ledger_update set_ledger];
      rewrite Hsrv; destruct e; cbn; eauto 10.
Qed.

(** C1: when every request is refused with a transient network or timeout
    error, the call makes one attempt and no more: one request is issued,
    retry_count stays what it was, the task object ends FAILED with an
    error message, and the typed error raised carries the URL and that
    unchanged retry count (a timeout raises DownloadTimeoutError instead). *)
Theorem C1_transient_errors_are_not_retried (self : AsyncDownloader)
    (w : World) (task : DownloadTask) (dest : Path) :
  (forall (n : nat) (req : Request), exists e, server self n req = Refused e) ->
  exists (w' : World) (task' : DownloadTask) (err : exn),
    _download_with_retry self w task dest = (w', task', Raise err)
    /\ ((exists reason,
           err = DownloadFailedError (source_url task) reason (retry_count task))
        \/ err = DownloadTimeoutError (source_url task) (timeout self))
    /\ length (requests w') = S (length (requests w))
    /\ retry_count task' = retry_count task
    /\ status task' = FAILED
    /\ error_message task' <> None.
Proof.
  intros Hall.
  destruct (Hall (length (requests w))
              (mkRequest (source_url task) (range_header w (str dest)))) as [e He].
  destruct (perform_download_refused self w task dest e He)
    as (task' & err & Hp & Herr & Hrc & Hst & Hmsg).
  rewrite download_with_retry_is_perform, Hp.
  eexists _, task', err. split; [reflexivity|].
  split; [|split; [|split; [done|split; [done|]]]].
  - subst err. destruct e; eauto.
  - cbn [requests]. rewrite length_app. simpl. lia.
  - by rewrite Hmsg.
Qed.

Lemma C1_witness :
  exists (w' : World) (task' : DownloadTask) (err : exn),
    _download_with_retry refusing empty_world fresh_task
                         (mkPath true ["data"; "downloads"; "a.bin"])
    = (w', task', Raise err)
    /\ ((exists reason, err = DownloadFailedError "http://x/a" reason 0)
        \/ err = DownloadTimeoutError "http://x/a" 300)
    /\ length (requests w') = 1%nat
    /\ retry_count task' = 0
    /\ status task' = FAILED
    /\ error_message task' <> None.
Proof.
  apply (C1_transient_errors_are_not_retried refusing empty_world fresh_task
           (mkPath true ["data"; "downloads"; "a.bin"])).
  intros n req. exists (NetClientError "Cannot connect to host"). reflexivity.
Defined.

(** ** Resuming a partial file *)

(** C3: with a partial file of N > 0 bytes at the destination the request
    carries [Range: bytes=N-], and when the server answers 200 or 206 and
    the body arrives whole the file holds the partial content followed by
    the body, and total_bytes is the Content-Length plus N.  That is the
    continuation the claim describes for 206; under 200, where the body is
    the whole resource, the partial file is not discarded either.  The
    call then ends in the exception of the digest lookup. *)
Theorem C3_resume_appends_under_200_and_206 (self : AsyncDownloader)
    (w : World) (task : DownloadTask) (dest : Path) (partial : list byte)
    (response : Response) :
  files w !! str dest = Some partial ->
  0 < len partial ->
  server self (length (requests w))
         (mkRequest (source_url task) (Some (len partial)))
  = Responded response ->
  resp_status response = 200 \/ resp_status response = 206 ->
  resp_error response = None ->
  exists (w' : World) (task' : DownloadTask),
    _perform_download self w task dest
    = (w', task', Raise (AttributeError "NamedTupleRow"))
    /\ requests w' = requests w ++ [mkRequest (source_url task) (Some (len partial))]
    /\ files w' !! str dest = Some (partial ++ concat (resp_chunks response))
    /\ total_bytes task'
       = Some (default 0 (resp_content_length response) + len partial).
Proof.
  intros Hf Hlen Hsrv Hst Herr.
  assert (Hrange : range_header w (str dest) = Some (len partial)).
  { unfold range_header. rewrite Hf.
    by destruct (Z.ltb_spec 0 (len partial)); [|lia]. }
  destruct (perform_download_streamed self w task dest response)
    as (w' & task' & Hp & Hreq & _ & Hfiles & _ & _ & _ & Htot);
    [by rewrite Hrange | done | done |].
  exists w', task'. rewrite Hrange in Hreq.
  unfold start_bytes in Htot. rewrite Hrange in Htot.
  repeat split; try done.
  rewrite Hfiles, lookup_insert_eq, Hf. done.
Qed.

Lemma C3_witness :
  exists (w' : World) (task' : DownloadTask),
    _perform_download (downloader whole_resource) world_with_partial resumed_task
                      (mkPath true ["data"; "downloads"; "a.bin"])
    = (w', task', Raise (AttributeError "NamedTupleRow"))
    /\ requests w' = [mkRequest "http://x/a" (Some 2)]
    /\ files w' !! "/data/downloads/a.bin" = Some (bytes "ABABCD")
    /\ total_bytes task' = Some 6.
Proof.
  apply (C3_resume_appends_under_200_and_206 (downloader whole_resource)
           world_with_partial resumed_task
           (mkPath true ["data"; "downloads"; "a.bin"]) (bytes "AB")
           (mkResponse 200 (Some 4) [bytes "ABCD"] None)).
  - reflexivity.
  - reflexivity.
  - reflexivity.
  - left. reflexivity.
  - reflexivity.
Defined.

(** The 416 branch with a body that arrives whole: the partial file is
    removed, a second request without range is made, and the file holds
    the last chunk of the second body, being reopened and truncated for
    every chunk; the digest lookup then raises as above. *)
Lemma perform_download_restarted (self : AsyncDownloader) (w : World)
    (task : DownloadTask) (dest : Path) (partial final_chunk : list byte)
    (refusal response : Response) :
  files w !! str dest = Some partial ->
  0 < len partial ->
  server self (length (requests w))
         (mkRequest (source_url task) (Some (len partial)))
  = Responded refusal ->
  resp_status refusal = 416 ->
  server self (S (length (requests w))) (mkRequest (source_url task) None)
  = Responded response ->
  resp_error response = None ->
  last (resp_chunks response) = Some final_chunk ->
  exists (w' : World) (task' : DownloadTask),
    _perform_download self w task dest
    = (w', task', Raise (AttributeError "NamedTupleRow"))
    /\ requests w'
       = requests w ++ [mkRequest (source_url task) (Some (len partial));
                        mkRequest (source_url task) None]
    /\ files w' !! str dest = Some final_chunk.
Proof.
  intros Hf Hlen Hsrv1 H416 Hsrv2 Herr Hlast.
  unfold _perform_download.
  change (files (ledger_update self w (with_status task DOWNLOADING)))
    with (files w).
  rewrite Hf.
  assert ((0 <? len partial) = true) as -> by (by apply Z.ltb_lt).
  unfold transfer, session_get.
  cbn [source_url with_status with_bytes_downloaded requests ledger_update
       set_ledger files ledger emitted].
  rewrite Hsrv1, H416. cbn [Z.eqb Pos.eqb].
  unfold unlink. cbn [files]. rewrite Hf.
  cbn [set_files ledger files requests emitted source_url with_bytes_downloaded].
  assert (length (requests w ++ [mkRequest (source_url task) (Some (len partial))])
          = S (length (requests w))) as ->
    by (rewrite length_app; simpl; lia).
  rewrite Hsrv2.
  match goal with
  | |- context [stream_restart self ?k ?t ?c ?w0 ?t0 ?h ?d] =>
      destruct (stream_restart_spec self k t c w0 t0 h d) as (em & bd & Heq)
  end.
  rewrite Heq, Herr, Hlast, finish_transfer_raises.
  eexists _, _. split; [reflexivity|].
  cbn [requests files]. by rewrite lookup_insert_eq, <- app_assoc.
Qed.

(** Under 416 the partial file is removed and a second request without
    range is made; of its two chunks only the last one is in the file at
    the end. *)
Example restart_under_416_evaluated :
  let '(w', task', r) :=
    _perform_download (downloader not_satisfiable) world_with_partial resumed_task
                      (mkPath true ["data"; "downloads"; "a.bin"]) in
  requests w' = [mkRequest "http://x/a" (Some 2); mkRequest "http://x/a" None]
  /\ files w' !! "/data/downloads/a.bin" = Some (bytes "CD")
  /\ bytes_downloaded task' = 4
  /\ r = Raise (AttributeError "NamedTupleRow").
Proof. vm_compute. repeat split. Qed.

Lemma update_task_written (now : Z) (task : DownloadTask) (rows : list Row)
    (r : Row) :
  In r (update_task now task rows) ->
  col_source_url r = source_url task ->
  col_status r = status task
  /\ col_sha256_hash r = sha256_hash task
  /\ col_retry_count r = retry_count task
  /\ col_error_message r = error_message task.
Proof.
  unfold update_task. intros Hin Hurl.
  apply in_map_iff in Hin as (r0 & <- & _).
  rewrite update_row_url in Hurl. unfold update_row.
  rewrite Hurl, String.eqb_refl. done.
Qed.

(** ** Deduplication *)

(** C2: when the body arrives whole (under 200 or 206) and its digest is
    that of a COMPLETED row of another URL, the duplicate is not detected:
    the lookup by digest raises the AttributeError of the row factory,
    which is no typed error and which no except clause catches.  The file
    just written stays on disk, the task stays DOWNLOADING, on the object
    and in its ledger row, and its sha256_hash is not written. *)
Theorem C2_duplicate_is_not_detected (self : AsyncDownloader) (w : World)
    (task : DownloadTask) (dest : Path) (response : Response) (matched : Row) :
  server self (length (requests w))
         (mkRequest (source_url task) (range_header w (str dest)))
  = Responded response ->
  resp_status response = 200 \/ resp_status response = 206 ->
  resp_error response = None ->
  duplicate_of (SHA256.hexdigest (concat (resp_chunks response)))
               (source_url task) (ledger w) = Some matched ->
  exists (w' : World) (task' : DownloadTask) (e : exn),
    _perform_download self w task dest = (w', task', Raise e)
    /\ get_task_by_hash (SHA256.hexdigest (concat (resp_chunks response))) (ledger w')
       = Raise e
    /\ is_typed_error e = false
    /\ (col_status matched = COMPLETED
        /\ col_source_url matched <> source_url task
        /\ col_sha256_hash matched
           = Some (SHA256.hexdigest (concat (resp_chunks response))))
    /\ files w' !! str dest
       = Some (default [] (files w !! str dest) ++ concat (resp_chunks response))
    /\ status task' = DOWNLOADING
    /\ sha256_hash task' = sha256_hash task
    /\ (forall r : Row,
          In r (ledger w') -> col_source_url r = source_url task ->
          col_status r = DOWNLOADING /\ col_sha256_hash r = sha256_hash task).
Proof.
  intros Hsrv Hst Herr Hdup.
  destruct (perform_download_streamed self w task dest response Hsrv Hst Herr)
    as (w' & task' & Hp & _ & Hled & Hfiles & Hstat & _ & Hhash & _).
  apply duplicate_of_spec in Hdup as (_ & Hmh & Hms & Hmu).
  exists w', task', (AttributeError "NamedTupleRow").
  split; [done|]. split; [done|]. split; [done|]. split; [done|].
  split; [by rewrite Hfiles, lookup_insert_eq|]. split; [done|]. split; [done|].
  intros r Hin Hr. rewrite Hled in Hin.
  change (source_url task) with (source_url (with_status task DOWNLOADING)) in Hr.
  destruct (update_task_written _ _ _ _ Hin Hr) as (-> & -> & _). done.
Qed.

Lemma C2_witness :
  exists (w' : World) (task' : DownloadTask) (e : exn),
    _perform_download (downloader same_content) world_with_a_and_b second_task
                      (mkPath true ["data"; "downloads"; "b.bin"])
    = (w', task', Raise e)
    /\ get_task_by_hash (SHA256.hexdigest (concat [bytes "AB"; bytes "CD"])) (ledger w')
       = Raise e
    /\ is_typed_error e = false
    /\ (col_status completed_row = COMPLETED
        /\ col_source_url completed_row <> "http://x/b"
        /\ col_sha256_hash completed_row
           = Some (SHA256.hexdigest (concat [bytes "AB"; bytes "CD"])))
    /\ files w' !! "/data/downloads/b.bin"
       = Some (default [] (files world_with_a_and_b !! "/data/downloads/b.bin")
               ++ concat [bytes "AB"; bytes "CD"])
    /\ status task' = DOWNLOADING
    /\ sha256_hash task' = None
    /\ (forall r : Row,
          In r (ledger w') -> col_source_url r = "http://x/b" ->
          col_status r = DOWNLOADING /\ col_sha256_hash r = None).
Proof.
  apply (C2_duplicate_is_not_detected (downloader same_content)
           world_with_a_and_b second_task
           (mkPath true ["data"; "downloads"; "b.bin"])
           (mkResponse 200 (Some 4) [bytes "AB"; bytes "CD"] None)
           completed_row).
  - reflexivity.
  - left. reflexivity.
  - reflexivity.
  - vm_compute. reflexivity.
Defined.

(** The same transfer evaluated: both files are on disk afterwards. *)
Example duplicate_transfer_evaluated :
  let '(w', task', r) :=
    _perform_download (downloader same_content) world_with_a_and_b second_task
                      (mkPath true ["data"; "downloads"; "b.bin"]) in
  files w' !! "/data/downloads/a.bin" = Some (bytes "ABCD")
  /\ files w' !! "/data/downloads/b.bin" = Some (bytes "ABCD")
  /\ status task' = DOWNLOADING
  /\ r = Raise (AttributeError "NamedTupleRow").
Proof. vm_compute. repeat split. Qed.

(** ** Everything a transfer does *)

Lemma emit_progress_emitted (self : AsyncDownloader) (w : World)
    (task : DownloadTask) (total : Z) :
  status task = DOWNLOADING ->
  exists l,
    emitted (_emit_progress self w task total) = emitted w ++ l
    /\ Forall (snapshot_of (source_url task)) l
    /\ (_progress_callback self = false -> l = []).
Proof.
  intros Hst. unfold _emit_progress.
  destruct (_progress_callback self) eqn:Hcb; cbn [andb].
  - destruct (Z.ltb_spec 0 total) as [Hpos|_].
    + eexists. split; [reflexivity|]. split; [|done].
      apply Forall_cons. split; [|apply Forall_nil; done].
      unfold snapshot_of. cbn. eauto.
    + exists []. by rewrite app_nil_r.
  - exists []. by rewrite app_nil_r.
Qed.

Lemma stream_body_emitted (self : AsyncDownloader) (key : string) (total : Z)
    (chunks : list (list byte)) (w : World) (task : DownloadTask)
    (hasher : list byte) (downloaded : Z) :
  status task = DOWNLOADING ->
  exists l,
    emitted (fst (fst (fst (stream_body self key total chunks w task hasher downloaded))))
    = emitted w ++ l
    /\ Forall (snapshot_of (source_url task)) l
    /\ (_progress_callback self = false -> l = []).
Proof.
  revert w task hasher downloaded.
  induction chunks as [|chunk rest IH]; intros w task hasher downloaded Hst.
  - exists []. simpl. by rewrite app_nil_r.
  - cbn [stream_body].
    destruct (emit_progress_emitted self (write_chunk key chunk w)
                (with_bytes_downloaded task (downloaded + len chunk)) total Hst)
      as (l1 & H1 & Hf1 & Hn1).
    destruct (IH (_emit_progress self (write_chunk key chunk w)
                    (with_bytes_downloaded task (downloaded + len chunk)) total)
                 (with_bytes_downloaded task (downloaded + len chunk))
                 (hasher ++ chunk) (downloaded + len chunk) Hst)
      as (l2 & H2 & Hf2 & Hn2).
    exists (l1 ++ l2). rewrite H2, H1. cbn [emitted write_chunk set_files].
    split; [by rewrite app_assoc|]. split; [by apply Forall_app|].
    intros Hcb. by rewrite Hn1, Hn2.
Qed.

Lemma stream_restart_emitted (self : AsyncDownloader) (key : string) (total : Z)
    (chunks : list (list byte)) (w : World) (task : DownloadTask)
    (hasher : list byte) (downloaded : Z) :
  status task = DOWNLOADING ->
  exists l,
    emitted (fst (fst (fst (stream_restart self key total chunks w task hasher downloaded))))
    = emitted w ++ l
    /\ Forall (snapshot_of (source_url task)) l
    /\ (_progress_callback self = false -> l = []).
Proof.
  revert w task hasher downloaded.
  induction chunks as [|chunk rest IH]; intros w task hasher downloaded Hst.
  - exists []. simpl. by rewrite app_nil_r.
  - cbn [stream_restart].
    destruct (emit_progress_emitted self (set_files w (<[key := chunk]> (files w)))
                (with_bytes_downloaded task (downloaded + len chunk)) total Hst)
      as (l1 & H1 & Hf1 & Hn1).
    destruct (IH (_emit_progress self (set_files w (<[key := chunk]> (files w)))
                    (with_bytes_downloaded task (downloaded + len chunk)) total)
                 (with_bytes_downloaded task (downloaded + len chunk))
                 (hasher ++ chunk) (downloaded + len chunk) Hst)
      as (l2 & H2 & Hf2 & Hn2).
    exists (l1 ++ l2). rewrite H2, H1. cbn [emitted set_files].
    split; [by rewrite app_assoc|]. split; [by apply Forall_app|].
    intros Hcb. by rewrite Hn1, Hn2.
Qed.

(** Everything the body of the [try] statement does, whatever the server
    answers: the ledger is not written; no file but the destination is
    touched; one or two requests are issued, for the task's URL; the
    snapshots emitted are of the transfer under way; of the task only the
    byte counts change; and the body is always left by an exception. *)
Lemma transfer_effects (self : AsyncDownloader) (w w' : World)
    (task task' : DownloadTask) (key : string) (range : option Z)
    (downloaded : Z) (r : result unit) :
  status task = DOWNLOADING ->
  transfer self w task key range downloaded = (w', task', r) ->
  ledger w' = ledger w
  /\ (forall k, k <> key -> files w' !! k = files w !! k)
  /\ (exists l, requests w' = requests w ++ l
                /\ (1 <= length l <= 2)%nat
                /\ Forall (fun q => req_url q = source_url task) l)
  /\ (exists l, emitted w' = emitted w ++ l
                /\ Forall (snapshot_of (source_url task)) l
                /\ (_progress_callback self = false -> l = []))
  /\ (source_url task' = source_url task /\ retry_count task' = retry_count task
      /\ error_message task' = error_message task /\ id task' = id task
      /\ local_filepath task' = local_filepath task
      /\ sha256_hash task' = sha256_hash task /\ status task' = DOWNLOADING)
  /\ exists e, r = Raise e /\ raised_in_transfer key e.
Proof.
  intros Hst. unfold transfer, session_get.
  assert (Hone : forall q : Request, req_url q = source_url task ->
            exists l, requests w ++ [q] = requests w ++ l
                      /\ (1 <= length l <= 2)%nat
                      /\ Forall (fun q => req_url q = source_url task) l).
  { intros q Hq. exists [q]. split; [done|]. split; [simpl; lia|].
    by repeat constructor. }
  assert (Hnone : exists l : list DownloadProgress,
            emitted w = emitted w ++ l
            /\ Forall (snapshot_of (source_url task)) l
            /\ (_progress_callback self = false -> l = [])).
  { exists []. by rewrite app_nil_r. }
  assert (Hnet : forall e : net_error,
            exists e', @Raise unit (exn_of_net e) = Raise e'
                       /\ raised_in_transfer key e').
  { intros e. eexists. split; [reflexivity|]. unfold raised_in_transfer.
    destruct e; cbn; eauto. }
  assert (Hattr : exists e', @Raise unit (AttributeError "NamedTupleRow") = Raise e'
                             /\ raised_in_transfer key e').
  { eexists. split; [reflexivity|]. unfold raised_in_transfer. eauto. }
  assert (Hnf : exists e', @Raise unit (FileNotFoundError key) = Raise e'
                           /\ raised_in_transfer key e').
  { eexists. split; [reflexivity|]. unfold raised_in_transfer. eauto. }
  destruct (server self _ _) as [e | response].
  { intros [= <- <- <-]. cbn.
    split; [done|]. split; [done|]. split; [by apply Hone|]. split; [done|].
    split; [done|]. apply Hnet. }
  destruct (resp_status response =? 416).
  - unfold unlink. cbn [files].
    destruct (files w !! key) as [old|] eqn:Hf.
    2:{ intros [= <- <- <-]. cbn.
        split; [done|]. split; [done|]. split; [by apply Hone|]. split; [done|].
        split; [done|]. apply Hnf. }
    cbn [set_files ledger files requests emitted source_url with_bytes_downloaded].
    assert (Htwo : exists l,
              (requests w ++ [mkRequest (source_url task) range])
                ++ [mkRequest (source_url task) None] = requests w ++ l
              /\ (1 <= length l <= 2)%nat
              /\ Forall (fun q => req_url q = source_url task) l).
    { eexists. rewrite <- app_assoc. split; [reflexivity|].
      split; [simpl; lia|]. repeat constructor. }
    destruct (server self _ _) as [e | response2].
    { intros [= <- <- <-]. cbn.
      split; [done|]. split; [intros k Hk; by rewrite lookup_delete_ne|].
      split; [exact Htwo|]. split; [done|].
      split; [done|]. apply Hnet. }
    match goal with
    | |- context [stream_restart self ?k ?t ?c ?w0 ?t0 ?h ?d] =>
        destruct (stream_restart_spec self k t c w0 t0 h d) as (em & bd & Heq);
        destruct (stream_restart_emitted self k t c w0 t0 h d Hst)
          as (l & Hem & Hfl & Hnl)
    end.
    rewrite Heq in Hem |- *. cbn [fst emitted ledger files requests] in Hem |- *.
    assert (Hfiles : forall k, k <> key ->
              (match last (resp_chunks response2) with
               | Some chunk => <[key := chunk]> (delete key (files w))
               | None => delete key (files w)
               end) !! k = files w !! k).
    { intros k Hk. destruct (last _).
      - by rewrite lookup_insert_ne, lookup_delete_ne.
      - by rewrite lookup_delete_ne. }
    rewrite finish_transfer_raises.
    destruct (resp_error response2) as [e|]; intros [= <- <- <-]; cbn.
    + split; [done|]. split; [exact Hfiles|]. split; [exact Htwo|].
      split; [exists l; by rewrite Hem|].
      split; [done|]. apply Hnet.
    + split; [done|]. split; [exact Hfiles|]. split; [exact Htwo|].
      split; [exists l; by rewrite Hem|].
      split; [done|]. apply Hattr.
  - destruct ((resp_status response =? 200) || (resp_status response =? 206)).
    2:{ intros [= <- <- <-]. cbn.
        split; [done|]. split; [done|]. split; [by apply Hone|]. split; [done|].
        split; [done|]. eexists. split; [reflexivity|].
        unfold raised_in_transfer. eauto. }
    set (w1 := open_for_write key _ _).
    assert (Hold : exists old, files w1 !! key = Some old).
    { unfold w1, open_for_write, set_files. cbn [files].
      rewrite lookup_insert_eq. eauto. }
    destruct Hold as [old Hold].
    match goal with
    | |- context [stream_body self ?k ?t ?c ?w0 ?t0 ?h ?d] =>
        destruct (stream_body_spec self k t c w0 t0 h old d Hold) as (em & bd & Heq);
        destruct (stream_body_emitted self k t c w0 t0 h d Hst)
          as (l & Hem & Hfl & Hnl)
    end.
    rewrite Heq in Hem |- *.
    unfold w1, open_for_write, set_files in Hem |- *.
    cbn [fst emitted ledger files requests] in Hem |- *.
    assert (Hfiles : forall k, k <> key ->
              <[key := old ++ concat (resp_chunks response)]>
                (<[key := if 0 <? downloaded then default [] (files w !! key) else []]>
                   (files w)) !! k = files w !! k).
    { intros k Hk. by rewrite !lookup_insert_ne. }
    rewrite finish_transfer_raises.
    destruct (resp_error response) as [e|]; intros [= <- <- <-]; cbn.
    + split; [done|]. split; [exact Hfiles|]. split; [by apply Hone|].
      split; [exists l; by rewrite Hem|].
      split; [done|]. apply Hnet.
    + split; [done|]. split; [exact Hfiles|]. split; [by apply Hone|].
      split; [exists l; by rewrite Hem|].
      split; [done|]. apply Hattr.
Qed.

(** Everything a call of [_perform_download] does.  The ledger is written
    once, at the start; the call never returns. *)
Lemma perform_download_effects (self : AsyncDownloader) (w w' : World)
    (task task' : DownloadTask) (dest : Path) (r : result DownloadTask) :
  _perform_download self w task dest = (w', task', r) ->
  ledger w' = update_task (clock self) (with_status task DOWNLOADING) (ledger w)
  /\ (forall k, k <> str dest -> files w' !! k = files w !! k)
  /\ (exists l, requests w' = requests w ++ l
                /\ (1 <= length l <= 2)%nat
                /\ Forall (fun q => req_url q = source_url task) l)
  /\ (exists l, emitted w' = emitted w ++ l
                /\ Forall (snapshot_of (source_url task)) l
                /\ (_progress_callback self = false -> l = []))
  /\ (source_url task' = source_url task /\ retry_count task' = retry_count task
      /\ id task' = id task /\ local_filepath task' = local_filepath task
      /\ sha256_hash task' = sha256_hash task)
  /\ exists e, r = Raise e /\ raised_by_perform self task task' (str dest) e.
Proof.
  unfold _perform_download.
  set (task1 := with_status task DOWNLOADING).
  set (w1 := ledger_update self w task1).
  destruct (match files w1 !! str dest with
            | Some content => _
            | None => _
            end) as [task2 range] eqn:Hpre.
  assert (H2 : status task2 = DOWNLOADING /\ source_url task2 = source_url task
               /\ retry_count task2 = retry_count task
               /\ error_message task2 = error_message task
               /\ id task2 = id task /\ local_filepath task2 = local_filepath task
               /\ sha256_hash task2 = sha256_hash task).
  { destruct (files w1 !! str dest) as [content|];
      [destruct (0 <? len content)|]; injection Hpre as <- _; done. }
  destruct H2 as (Hs2 & Hu2 & Hr2 & He2 & Hi2 & Hp2 & Hh2).
  destruct (transfer self w1 task2 (str dest) range (bytes_downloaded task2))
    as [[w2 task3] r2] eqn:Htr.
  apply transfer_effects in Htr
    as (Hl & Hfk & Hrq & Hem & (Hu3 & Hr3 & He3 & Hi3 & Hp3 & Hh3 & Hs3)
        & (e & -> & Hraised)); [|done].
  rewrite Hu2 in Hrq, Hem.
  assert (Hurl : source_url task3 = source_url task) by congruence.
  assert (Hrc : retry_count task3 = retry_count task) by congruence.
  assert (Hcommon :
            forall (w' : World) (task' : DownloadTask) (err : exn),
              w' = w2 -> source_url task' = source_url task3 ->
              retry_count task' = retry_count task3 ->
              id task' = id task3 -> local_filepath task' = local_filepath task3 ->
              sha256_hash task' = sha256_hash task3 ->
              raised_by_perform self task task' (str dest) err ->
              ledger w' = update_task (clock self) task1 (ledger w)
              /\ (forall k, k <> str dest -> files w' !! k = files w !! k)
              /\ (exists l, requests w' = requests w ++ l
                            /\ (1 <= length l <= 2)%nat
                            /\ Forall (fun q => req_url q = source_url task) l)
              /\ (exists l, emitted w' = emitted w ++ l
                            /\ Forall (snapshot_of (source_url task)) l
                            /\ (_progress_callback self = false -> l = []))
              /\ (source_url task' = source_url task
                  /\ retry_count task' = retry_count task
                  /\ id task' = id task
                  /\ local_filepath task' = local_filepath task
                  /\ sha256_hash task' = sha256_hash task)
              /\ exists e', @Raise DownloadTask err = Raise e'
                            /\ raised_by_perform self task task' (str dest) e').
  { intros w0 t0 err -> Hu0 Hr0 Hi0 Hp0 Hh0 Hrb.
    split; [by rewrite Hl|]. split; [done|]. split; [done|]. split; [done|].
    split; [repeat split; congruence|]. eauto. }
  destruct Hraised as [[msg ->] | [-> | [-> | ->]]].
  - intros [= <- <- <-]. apply Hcommon; try done.
    left. exists msg. cbn. by rewrite Hurl, Hrc.
  - intros [= <- <- <-]. apply Hcommon; try done.
    right. left. cbn. by rewrite Hurl.
  - intros [= <- <- <-]. apply Hcommon; try done.
    right. right. split; [by left|]. split; [done | congruence].
  - intros [= <- <- <-]. apply Hcommon; try done.
    right. right. split; [by right|]. split; [done | congruence].
Qed.

(** ** Failures *)

(** C7: whenever [_perform_download] raises one of the typed errors, the
    task object has been marked FAILED and given a message, but the ledger
    holds what the update at the start of the call wrote: the rows of the
    task's URL are DOWNLOADING, with the message the task had before the
    call.  The FAILED state and the message are set on the task object only
    and are not written to the ledger before the raise. *)
Theorem C7_failure_is_not_persisted (self : AsyncDownloader) (w w' : World)
    (task task' : DownloadTask) (dest : Path) (e : exn) :
  _perform_download self w task dest = (w', task', Raise e) ->
  is_typed_error e = true ->
  status task' = FAILED
  /\ error_message task' <> None
  /\ ledger w' = update_task (clock self) (with_status task DOWNLOADING) (ledger w)
  /\ (forall r : Row,
        In r (ledger w') -> col_source_url r = source_url task ->
        col_status r = DOWNLOADING /\ col_error_message r = error_message task).
Proof.
  intros Hp Htyped.
  apply perform_download_effects in Hp as (Hl & _ & _ & _ & _ & (e' & [= <-] & Hr)).
  assert (Hrows : forall r : Row,
            In r (ledger w') -> col_source_url r = source_url task ->
            col_status r = DOWNLOADING /\ col_error_message r = error_message task).
  { intros r Hin Hu. rewrite Hl in Hin.
    change (source_url task) with (source_url (with_status task DOWNLOADING)) in Hu.
    destruct (update_task_written _ _ _ _ Hin Hu) as (-> & _ & _ & ->). done. }
  destruct Hr as [(reason & -> & Hs & Hm) | [(-> & Hs & Hm) | ([-> | ->] & _)]];
    try done.
  - by rewrite Hm.
  - by rewrite Hm.
Qed.

Lemma C7_witness :
  status (snd (fst (_perform_download refusing world_with_partial resumed_task
                      (mkPath true ["data"; "downloads"; "a.bin"])))) = FAILED
  /\ error_message
       (snd (fst (_perform_download refusing world_with_partial resumed_task
                    (mkPath true ["data"; "downloads"; "a.bin"])))) <> None
  /\ ledger (fst (fst (_perform_download refusing world_with_partial resumed_task
                         (mkPath true ["data"; "downloads"; "a.bin"]))))
     = update_task (clock refusing) (with_status resumed_task DOWNLOADING)
                   (ledger world_with_partial)
  /\ (forall r : Row,
        In r (ledger (fst (fst (_perform_download refusing world_with_partial
                                  resumed_task
                                  (mkPath true ["data"; "downloads"; "a.bin"]))))) ->
        col_source_url r = source_url resumed_task ->
        col_status r = DOWNLOADING
        /\ col_error_message r = error_message resumed_task).
Proof.
  apply (C7_failure_is_not_persisted refusing world_with_partial
           (fst (fst (_perform_download refusing world_with_partial resumed_task
                        (mkPath true ["data"; "downloads"; "a.bin"]))))
           resumed_task
           (snd (fst (_perform_download refusing world_with_partial resumed_task
                        (mkPath true ["data"; "downloads"; "a.bin"]))))
           (mkPath true ["data"; "downloads"; "a.bin"])
           (DownloadFailedError "http://x/a" "Cannot connect to host" 0)).
  - reflexivity.
  - reflexivity.
Defined.

(** The same failure evaluated: one request, the typed error with
    retries = 0, the task object FAILED and the row left in the ledger. *)
Example refused_transfer_evaluated :
  let '(w', task', r) :=
    _perform_download refusing world_with_partial resumed_task
                      (mkPath true ["data"; "downloads"; "a.bin"]) in
  r = Raise (DownloadFailedError "http://x/a" "Cannot connect to host" 0)
  /\ status task' = FAILED
  /\ error_message task' = Some "Cannot connect to host"
  /\ requests w' = [mkRequest "http://x/a" (Some 2)]
  /\ ledger w'
     = [mkRow 1 "http://x/a" "/data/downloads/a.bin" DOWNLOADING 2 (Some 4) None 0
              None 900 1000].
Proof. vm_compute. repeat split. Qed.

(** ** Digests *)



(** A resumed transfer evaluated: the file is complete on disk, and
    neither the task object nor its ledger row has a digest. *)
Example resumed_transfer_evaluated :
  let '(w', task', r) :=
    _perform_download (downloader continuing) world_with_partial resumed_task
                      (mkPath true ["data"; "downloads"; "a.bin"]) in
  files w' !! "/data/downloads/a.bin" = Some (bytes "ABCD")
  /\ sha256_hash task' = None
  /\ map col_sha256_hash (ledger w') = [None]
  /\ r = Raise (AttributeError "NamedTupleRow").
Proof. vm_compute. repeat split. Qed.

(** The second downloader on a fresh destination: the digest is that of
    the four bytes on disk. *)
Example services_digest_evaluated :
  let '(st', task) :=
    Services.download same_content (Services.mkState ∅ [] ∅) "http://x/a"
                      (mkPath true ["data"; "downloads"; "a.bin"]) in
  Services.files st' !! "/data/downloads/a.bin" = Some (bytes "ABCD")
  /\ Services.sha256_hash task = Some (SHA256.hexdigest (bytes "ABCD")).
Proof. vm_compute. repeat split. Qed.

(** ** The lookup at the head of download *)

(** Past the sanitizer every call stops at the lookup of the URL: nothing
    is created, requested or written. *)
Lemma download_traced_accepted (self : AsyncDownloader) (w : World)
    (url : string) (dest resolved : Path) :
  sanitize_path (cwd self) dest (downloads_dir self) = Ok resolved ->
  download_traced self w url dest = (w, None, Raise (AttributeError "NamedTupleRow")).
Proof. intros Hs. unfold download_traced. by rewrite Hs, get_task_by_url_raises. Qed.

Lemma sanitize_path_raises (cwd : list string) (dest base : Path) (e : exn) :
  sanitize_path cwd dest base = Raise e -> exists msg, e = ValueError msg.
Proof.
  unfold sanitize_path.
  destruct (contains ".." (str dest) || is_absolute dest); [intros [= <-]; eauto|].
  destruct (relative_to _ base); [done | intros [= <-]; eauto].
Qed.

Lemma download_world (self : AsyncDownloader) (w : World) (url : string)
    (dest : Path) :
  fst (download self w url dest) = w.
Proof.
  unfold download.
  destruct (sanitize_path (cwd self) dest (downloads_dir self)) as [resolved|e]
    eqn:Hs.
  - by rewrite (download_traced_accepted self w url dest resolved Hs).
  - by rewrite (download_rejects self w url dest e Hs).
Qed.

(** C5: when the ledger holds a COMPLETED or DUPLICATE row for the URL,
    download does not return it.  The call is left by an exception with
    ledger, files and request log as they were: the ValueError of the
    sanitizer when it rejects the path, and otherwise the AttributeError
    that the lookup of the URL raises before its query is run. *)
Theorem C5_lookup_raises_before_short_circuit (self : AsyncDownloader)
    (w : World) (url : string) (dest : Path) (existing : DownloadTask) :
  select_by_url url (ledger w) = Some existing ->
  status existing = COMPLETED \/ status existing = DUPLICATE ->
  exists e : exn,
    download self w url dest = (w, Raise e)
    /\ ((exists msg,
           e = ValueError msg
           /\ sanitize_path (cwd self) dest (downloads_dir self)
              = Raise (ValueError msg))
        \/ (exists resolved,
              sanitize_path (cwd self) dest (downloads_dir self) = Ok resolved
              /\ get_task_by_url url (ledger w) = Raise e
              /\ e = AttributeError "NamedTupleRow")).
Proof.
  intros _ _. unfold download.
  destruct (sanitize_path (cwd self) dest (downloads_dir self)) as [resolved|e]
    eqn:Hs.
  - rewrite (download_traced_accepted self w url dest resolved Hs).
    eexists. split; [reflexivity|]. right. eauto.
  - rewrite (download_rejects self w url dest e Hs).
    destruct (sanitize_path_raises _ _ _ _ Hs) as [msg ->].
    eexists. split; [reflexivity|]. left. eauto.
Qed.

Lemma C5_witness :
  exists e : exn,
    download (downloader same_content) world_with_a_and_b "http://x/a"
             (mkPath false ["a.bin"])
    = (world_with_a_and_b, Raise e)
    /\ ((exists msg,
           e = ValueError msg
           /\ sanitize_path (cwd (downloader same_content)) (mkPath false ["a.bin"])
                            (downloads_dir (downloader same_content))
              = Raise (ValueError msg))
        \/ (exists resolved,
              sanitize_path (cwd (downloader same_content)) (mkPath false ["a.bin"])
                            (downloads_dir (downloader same_content))
              = Ok resolved
              /\ get_task_by_url "http://x/a" (ledger world_with_a_and_b) = Raise e
              /\ e = AttributeError "NamedTupleRow")).
Proof.
  apply (C5_lookup_raises_before_short_circuit (downloader same_content)
           world_with_a_and_b "http://x/a" (mkPath false ["a.bin"])
           (_row_to_task completed_row)).
  - reflexivity.
  - left. reflexivity.
Defined.

(** The call of the claim evaluated: the row is COMPLETED, the path is
    accepted, and the call raises. *)
Example completed_url_download_evaluated :
  option_map status (select_by_url "http://x/a" (ledger world_with_a_and_b))
  = Some COMPLETED
  /\ download (downloader same_content) world_with_a_and_b "http://x/a"
              (mkPath false ["a.bin"])
     = (world_with_a_and_b, Raise (AttributeError "NamedTupleRow")).
Proof. vm_compute. split; reflexivity. Qed.

(** * Further properties *)

(** ** The sanitizer *)

Lemma collapse_acc_clean (ps stack : list string) :
  ~ In ".." stack -> ~ In ".." (fold_left collapse_step ps stack).
Proof.
  revert stack. induction ps as [|p ps IH]; intros stack Hs; [done|].
  simpl. apply IH. unfold collapse_step.
  destruct (String.eqb_spec p "..") as [->|Hne].
  - destruct stack; simpl in *; tauto.
  - simpl. intros [H|H]; [congruence | tauto].
Qed.

Lemma collapse_clean (ps : list string) : ~ In ".." (collapse ps).
Proof.
  unfold collapse. rewrite <- in_rev. apply collapse_acc_clean. simpl. tauto.
Qed.

Lemma sanitize_path_ok_inv (cwd : list string) (dest base r : Path) :
  sanitize_path cwd dest base = Ok r ->
  contains ".." (str dest) = false /\ is_absolute dest = false
  /\ r = resolve cwd (truediv base dest) /\ at_or_below base r.
Proof.
  unfold sanitize_path.
  destruct (contains ".." (str dest)); [done|].
  destruct (is_absolute dest); [done|]. simpl.
  destruct (relative_to _ base) as [rel|e] eqn:Hrel; [|done].
  intros [= <-]. repeat split; try done.
  - apply relative_to_spec. eauto.
  - apply relative_to_spec. eauto.
Qed.

(** X1: what an accepted path is: absolute, equal to allowed_base or below
    it component by component, free of parent-directory segments, and the
    answer to a relative request that had none either; allowed_base itself
    is then absolute. *)
Theorem sanitize_path_accepts_inside (cwd : list string) (dest base r : Path) :
  sanitize_path cwd dest base = Ok r ->
  is_absolute r = true
  /\ is_absolute base = true
  /\ (exists rest, parts r = parts base ++ rest)
  /\ ~ In ".." (parts r)
  /\ is_absolute dest = false
  /\ ~ In ".." (parts dest).
Proof.
  intros H. apply sanitize_path_ok_inv in H as (Hc & Ha & -> & Habs & Hrest).
  split; [done|]. split; [by rewrite <- Habs|]. split; [done|].
  split; [apply collapse_clean|]. split; [done|].
  intros Hin. apply parent_segment_in_str in Hin. congruence.
Qed.

Lemma sanitize_path_accepts_inside_witness :
  is_absolute (mkPath true ["data"; "downloads"; "sub"; "file.pdf"]) = true
  /\ is_absolute (mkPath true ["data"; "downloads"]) = true
  /\ (exists rest, parts (mkPath true ["data"; "downloads"; "sub"; "file.pdf"])
                   = parts (mkPath true ["data"; "downloads"]) ++ rest)
  /\ ~ In ".." (parts (mkPath true ["data"; "downloads"; "sub"; "file.pdf"]))
  /\ is_absolute (mkPath false ["sub"; "file.pdf"]) = false
  /\ ~ In ".." (parts (mkPath false ["sub"; "file.pdf"])).
Proof.
  apply (sanitize_path_accepts_inside ["app"] (mkPath false ["sub"; "file.pdf"])
           (mkPath true ["data"; "downloads"])
           (mkPath true ["data"; "downloads"; "sub"; "file.pdf"])).
  reflexivity.
Defined.

(** X2: a relative allowed_base, such as the default [./data/downloads],
    makes sanitize_path reject every destination. *)
Theorem sanitize_path_relative_base_rejects (cwd : list string)
    (dest base : Path) :
  is_absolute base = false ->
  exists msg, sanitize_path cwd dest base = Raise (ValueError msg).
Proof.
  intros Hb.
  destruct (sanitize_path cwd dest base) as [r|e] eqn:Hs.
  - apply sanitize_path_ok_inv in Hs as (_ & _ & -> & Habs & _).
    simpl in Habs. congruence.
  - unfold sanitize_path in Hs.
    destruct (contains ".." (str dest) || is_absolute dest);
      [injection Hs as <-; eauto|].
    destruct (relative_to _ base); [done | injection Hs as <-; eauto].
Qed.

Lemma sanitize_path_relative_base_rejects_witness :
  exists msg,
    sanitize_path ["app"] (mkPath false ["file.pdf"])
                  (mkPath false ["data"; "downloads"])
    = Raise (ValueError msg).
Proof.
  apply (sanitize_path_relative_base_rejects ["app"] (mkPath false ["file.pdf"])
           (mkPath false ["data"; "downloads"])).
  reflexivity.
Defined.

(** X3: sanitize_path rejects every path that it returns: its results are
    absolute, and an absolute request is a traversal attempt. *)
Theorem sanitize_path_rejects_its_result (cwd cwd' : list string)
    (dest base base' r : Path) :
  sanitize_path cwd dest base = Ok r ->
  sanitize_path cwd' r base'
  = Raise (ValueError ("Path traversal attempt detected: " +:+ str r)).
Proof.
  intros H. apply sanitize_path_ok_inv in H as (_ & _ & -> & _).
  unfold sanitize_path. cbn [is_absolute resolve]. by rewrite orb_true_r.
Qed.

Lemma sanitize_path_rejects_its_result_witness :
  sanitize_path ["app"] (mkPath true ["data"; "downloads"; "file.pdf"])
                (mkPath true ["data"; "downloads"])
  = Raise (ValueError ("Path traversal attempt detected: "
                       +:+ str (mkPath true ["data"; "downloads"; "file.pdf"]))).
Proof.
  apply (sanitize_path_rejects_its_result ["app"] ["app"]
           (mkPath false ["file.pdf"]) (mkPath true ["data"; "downloads"])
           (mkPath true ["data"; "downloads"])
           (mkPath true ["data"; "downloads"; "file.pdf"])).
  reflexivity.
Defined.

(** ** The ledger *)

Lemma col_id_below_next (rows : list Row) (r : Row) :
  In r rows -> col_id r < next_rowid rows.
Proof.
  unfold next_rowid. induction rows as [|a rows IH]; [done|].
  simpl. intros [->|Hin]; [lia|]. specialize (IH Hin). lia.
Qed.

Lemma find_some_existsb (f : Row -> bool) (rows : list Row) (r : Row) :
  List.find f rows = Some r -> existsb f rows = true.
Proof.
  induction rows as [|a rows IH]; [done|]. simpl.
  destruct (f a); [done | exact IH].
Qed.

Lemma not_in_urls_existsb (url : string) (rows : list Row) :
  ~ In url (map col_source_url rows) ->
  existsb (fun r => String.eqb (col_source_url r) url) rows = false.
Proof.
  induction rows as [|r rows IH]; [done|]. simpl. intros Hn.
  destruct (String.eqb_spec (col_source_url r) url) as [He|He]; [tauto|].
  apply IH. tauto.
Qed.

(** X5: create_task for a URL that no row has appends exactly one row,
    PENDING with the declared defaults, and returns the task of that row;
    the id it takes is above every id in the table, so that pairwise
    distinct ids stay pairwise distinct, and so do pairwise distinct
    URLs. *)
Theorem create_task_inserts_fresh_row (now : Z) (url filepath : string)
    (rows : list Row) :
  ~ In url (map col_source_url rows) ->
  create_task now url filepath rows
  = (rows ++ [created_row now url filepath rows],
     Ok (created_task url filepath rows))
  /\ (forall r, In r rows -> col_id r < next_rowid rows)
  /\ (List.NoDup (map col_id rows) ->
      List.NoDup (map col_id (rows ++ [created_row now url filepath rows])))
  /\ (List.NoDup (map col_source_url rows) ->
      List.NoDup (map col_source_url
                    (rows ++ [created_row now url filepath rows]))).
Proof.
  intros Hn. split; [|split; [|split]].
  - unfold create_task. by rewrite (not_in_urls_existsb _ _ Hn).
  - intros r. apply col_id_below_next.
  - intros Hnd. rewrite map_app. cbn [map created_row col_id].
    apply NoDup_ListNoDup, NoDup_app. split; [by apply NoDup_ListNoDup|].
    split; [|apply NoDup_singleton].
    intros x Hx Hx'. apply list_elem_of_singleton in Hx' as ->.
    apply list_elem_of_In, in_map_iff in Hx as (r & Hr & Hin).
    pose proof (col_id_below_next _ _ Hin). lia.
  - intros Hnd. rewrite map_app. cbn [map created_row col_source_url].
    apply NoDup_ListNoDup, NoDup_app. split; [by apply NoDup_ListNoDup|].
    split; [|apply NoDup_singleton].
    intros x Hx Hx'. apply list_elem_of_singleton in Hx' as ->.
    by apply list_elem_of_In in Hx.
Qed.

Lemma create_task_inserts_fresh_row_witness :
  create_task 1000 "http://x/b" "/data/downloads/b.bin" [completed_row]
  = ([completed_row]
       ++ [created_row 1000 "http://x/b" "/data/downloads/b.bin" [completed_row]],
     Ok (created_task "http://x/b" "/data/downloads/b.bin" [completed_row]))
  /\ (forall r, In r [completed_row] -> col_id r < next_rowid [completed_row])
  /\ (List.NoDup (map col_id [completed_row]) ->
      List.NoDup (map col_id
                    ([completed_row]
                       ++ [created_row 1000 "http://x/b" "/data/downloads/b.bin"
                                       [completed_row]])))
  /\ (List.NoDup (map col_source_url [completed_row]) ->
      List.NoDup (map col_source_url
                    ([completed_row]
                       ++ [created_row 1000 "http://x/b" "/data/downloads/b.bin"
                                       [completed_row]]))).
Proof.
  apply (create_task_inserts_fresh_row 1000 "http://x/b" "/data/downloads/b.bin"
           [completed_row]).
  simpl. intros [H|[]]. discriminate H.
Defined.

(** X6: create_task for a URL that the ledger already has fails on the
    UNIQUE constraint and leaves the table as it was. *)
Theorem create_task_existing_url (now : Z) (url filepath : string)
    (rows : list Row) (existing : DownloadTask) :
  select_by_url url rows = Some existing ->
  exists msg, create_task now url filepath rows = (rows, Raise (IntegrityError msg)).
Proof.
  intros Hg. unfold create_task, select_by_url in *.
  destruct (List.find _ rows) as [r|] eqn:Hf; [|done].
  rewrite (find_some_existsb _ _ _ Hf). eauto.
Qed.

Lemma create_task_existing_url_witness :
  exists msg,
    create_task 1000 "http://x/a" "/data/downloads/other.bin" [completed_row]
    = ([completed_row], Raise (IntegrityError msg)).
Proof.
  apply (create_task_existing_url 1000 "http://x/a" "/data/downloads/other.bin"
           [completed_row] (_row_to_task completed_row)).
  reflexivity.
Defined.

(** X7: update_task is no upsert: for a task whose URL has no row it
    changes nothing, and the task is still not found afterwards. *)
Theorem update_task_unknown_url (now : Z) (task : DownloadTask)
    (rows : list Row) :
  select_by_url (source_url task) rows = None ->
  update_task now task rows = rows
  /\ select_by_url (source_url task) (update_task now task rows) = None.
Proof.
  intros Hnone.
  assert (Hsame : update_task now task rows = rows).
  { unfold select_by_url in Hnone.
    destruct (List.find _ rows) eqn:Hf; [done|]. clear Hnone.
    unfold update_task. induction rows as [|r rows IH]; [done|].
    simpl in *.
    destruct (String.eqb_spec (col_source_url r) (source_url task)) as [He|He];
      [done|].
    rewrite update_row_other by done. f_equal. by apply IH. }
  by rewrite Hsame.
Qed.

Lemma update_task_unknown_url_witness :
  update_task 1000 second_task [completed_row] = [completed_row]
  /\ select_by_url (source_url second_task)
       (update_task 1000 second_task [completed_row]) = None.
Proof.
  apply (update_task_unknown_url 1000 second_task [completed_row]).
  reflexivity.
Defined.

(** X8: of two updates for the same URL the later one alone counts, so
    that writing a task twice is writing it once; updates for different
    URLs can be exchanged. *)
Theorem update_task_last_write_wins (now now' : Z) (t1 t2 : DownloadTask)
    (rows : list Row) :
  (source_url t1 = source_url t2 ->
   update_task now t1 (update_task now' t2 rows) = update_task now t1 rows)
  /\ (source_url t1 <> source_url t2 ->
      update_task now t1 (update_task now' t2 rows)
      = update_task now' t2 (update_task now t1 rows)).
Proof.
  unfold update_task. split; intros Hu.
  - rewrite <- list_fmap_compose. apply list_fmap_ext.
    intros i r _. unfold compose, update_row. rewrite Hu.
    destruct (String.eqb (col_source_url r) (source_url t2)) eqn:He; cbn;
      by rewrite He.
  - rewrite <- !list_fmap_compose. apply list_fmap_ext.
    intros i r _. unfold compose, update_row.
    destruct (String.eqb_spec (col_source_url r) (source_url t2)) as [H2|H2];
      destruct (String.eqb_spec (col_source_url r) (source_url t1)) as [H1|H1];
      cbn; try congruence.
    + destruct (String.eqb_spec (col_source_url r) (source_url t1)); [done|].
      by destruct (String.eqb_spec (col_source_url r) (source_url t2)).
    + destruct (String.eqb_spec (col_source_url r) (source_url t2)); [done|].
      by destruct (String.eqb_spec (col_source_url r) (source_url t1)).
    + destruct (String.eqb_spec (col_source_url r) (source_url t1)); [done|].
      by destruct (String.eqb_spec (col_source_url r) (source_url t2)).
Qed.

(** ** Every call of download *)

(** X9: download never deletes or reorders rows of the ledger and never
    changes the id, URL, file path or creation time of a row; it adds at
    most one row, and only for a URL that had none, with the next id, the
    sanitized path and the current time. *)
Theorem download_keeps_rows (self : AsyncDownloader) (w : World) (url : string)
    (dest : Path) :
  (forall (i : nat) (r : Row),
     ledger w !! i = Some r ->
     exists r', ledger (fst (download self w url dest)) !! i = Some r'
                /\ row_key r' = row_key r)
  /\ (length (ledger (fst (download self w url dest))) = length (ledger w)
      \/ (select_by_url url (ledger w) = None
          /\ exists resolved new,
               sanitize_path (cwd self) dest (downloads_dir self) = Ok resolved
               /\ ledger (fst (download self w url dest)) !! length (ledger w)
                  = Some new
               /\ row_key new
                  = (next_rowid (ledger w), url, str resolved, clock self)
               /\ length (ledger (fst (download self w url dest)))
                  = S (length (ledger w)))).
Proof.
  rewrite download_world. split.
  - intros i r Hi. eauto.
  - by left.
Qed.

(** X10: if the URLs of the ledger's rows are pairwise distinct, and its
    ids are, they still are after any call of download. *)
Theorem download_keeps_urls_unique (self : AsyncDownloader) (w : World)
    (url : string) (dest : Path) :
  List.NoDup (map col_source_url (ledger w)) ->
  List.NoDup (map col_id (ledger w)) ->
  List.NoDup (map col_source_url (ledger (fst (download self w url dest))))
  /\ List.NoDup (map col_id (ledger (fst (download self w url dest)))).
Proof. intros Hu Hi. by rewrite download_world. Qed.

Lemma download_keeps_urls_unique_witness :
  List.NoDup (map col_source_url
                (ledger (fst (download (downloader same_content) world_with_a_and_b
                                       "http://x/c" (mkPath false ["c.bin"])))))
  /\ List.NoDup (map col_id
                   (ledger (fst (download (downloader same_content) world_with_a_and_b
                                          "http://x/c" (mkPath false ["c.bin"]))))).
Proof.
  apply (download_keeps_urls_unique (downloader same_content) world_with_a_and_b
           "http://x/c" (mkPath false ["c.bin"])).
  - simpl. repeat constructor; simpl; intros H; repeat destruct H as [H|H];
      try discriminate H; exact H.
  - simpl. repeat constructor; simpl; intros H; repeat destruct H as [H|H];
      try discriminate H; exact H.
Defined.

(** X11: download never writes the status FAILED to the ledger: a row
    that is FAILED after a call was in the ledger, exactly so, before it. *)
Theorem download_never_records_failed (self : AsyncDownloader) (w : World)
    (url : string) (dest : Path) (r' : Row) :
  In r' (ledger (fst (download self w url dest))) ->
  col_status r' = FAILED ->
  In r' (ledger w).
Proof. by rewrite download_world. Qed.

Lemma download_never_records_failed_witness :
  In (mkRow 1 "http://x/old" "/data/downloads/old.bin" FAILED 0 None None 3
            (Some "gone") 900 950)
     (ledger world_with_failed).
Proof.
  apply (download_never_records_failed refusing world_with_failed "http://x/a"
           (mkPath false ["a.bin"])).
  - vm_compute. left. reflexivity.
  - reflexivity.
Defined.

(** X12: when the URLs of the ledger are pairwise distinct, download never
    changes the retry count or the error message of a row: the retry count
    is never incremented and no message is ever stored. *)
Theorem download_keeps_retry_count_and_message (self : AsyncDownloader)
    (w : World) (url : string) (dest : Path) (i : nat) (r r' : Row) :
  List.NoDup (map col_source_url (ledger w)) ->
  ledger w !! i = Some r ->
  ledger (fst (download self w url dest)) !! i = Some r' ->
  col_retry_count r' = col_retry_count r
  /\ col_error_message r' = col_error_message r.
Proof.
  intros _ Hi. rewrite download_world, Hi. by intros [= <-].
Qed.

Lemma download_keeps_retry_count_and_message_witness :
  col_retry_count
    (mkRow 1 "http://x/a" "/data/downloads/a.bin" DOWNLOADING 2 (Some 4) None 0
           None 900 950)
  = col_retry_count
      (mkRow 1 "http://x/a" "/data/downloads/a.bin" DOWNLOADING 2 (Some 4) None 0
             None 900 950)
  /\ col_error_message
       (mkRow 1 "http://x/a" "/data/downloads/a.bin" DOWNLOADING 2 (Some 4) None 0
              None 900 950)
     = col_error_message
         (mkRow 1 "http://x/a" "/data/downloads/a.bin" DOWNLOADING 2 (Some 4) None 0
                None 900 950).
Proof.
  apply (download_keeps_retry_count_and_message refusing world_with_partial
           "http://x/a" (mkPath false ["a.bin"]) 0).
  - simpl. repeat constructor. simpl. tauto.
  - reflexivity.
  - vm_compute. reflexivity.
Defined.

(** X13: download touches no file but the sanitized destination: every
    other path holds after the call what it held before, and a call whose
    path the sanitizer rejects touches none. *)
Theorem download_touches_only_destination (self : AsyncDownloader) (w : World)
    (url : string) (dest : Path) (k : string) :
  (forall resolved,
     sanitize_path (cwd self) dest (downloads_dir self) = Ok resolved ->
     k <> str resolved) ->
  files (fst (download self w url dest)) !! k = files w !! k.
Proof. intros _. by rewrite download_world. Qed.

Lemma download_touches_only_destination_witness :
  files (fst (download (downloader same_content) world_with_a_and_b "http://x/b"
                       (mkPath false ["b.bin"]))) !! "/data/downloads/a.bin"
  = files world_with_a_and_b !! "/data/downloads/a.bin".
Proof.
  apply (download_touches_only_destination (downloader same_content)
           world_with_a_and_b "http://x/b" (mkPath false ["b.bin"])
           "/data/downloads/a.bin").
  intros resolved H. injection H as <-. discriminate.
Defined.

(** X14: a call of download issues at most two requests, each for the URL
    it was given, and none at all when the sanitizer rejects the path or
    the ledger's task for the URL is COMPLETED or DUPLICATE. *)
Theorem download_requests (self : AsyncDownloader) (w : World) (url : string)
    (dest : Path) :
  exists l,
    requests (fst (download self w url dest)) = requests w ++ l
    /\ (length l <= 2)%nat
    /\ Forall (fun q => req_url q = url) l
    /\ ((forall resolved,
           sanitize_path (cwd self) dest (downloads_dir self) <> Ok resolved)
        -> l = [])
    /\ (forall existing,
          select_by_url url (ledger w) = Some existing ->
          status existing = COMPLETED \/ status existing = DUPLICATE -> l = []).
Proof.
  exists []. rewrite download_world, app_nil_r.
  repeat split; try done. simpl. lia.
Qed.

(** X15: every progress snapshot that a call of download hands to the
    callback is one of the transfer under way: its status is DOWNLOADING,
    its URL the one asked for, its total known and positive.  The final
    status is never emitted, and nothing is emitted without a callback. *)
Theorem download_progress_snapshots (self : AsyncDownloader) (w : World)
    (url : string) (dest : Path) :
  exists l,
    emitted (fst (download self w url dest)) = emitted w ++ l
    /\ Forall (snapshot_of url) l
    /\ (_progress_callback self = false -> l = []).
Proof. exists []. by rewrite download_world, app_nil_r. Qed.



(** ** Every call of the transfer engine *)

(** X31: every call of _perform_download, whatever the server answers,
    issues one or two requests, each for the task's URL; touches no file
    but the destination; hands to the callback only snapshots of the
    transfer under way, with status DOWNLOADING, the task's URL and a
    positive total, and none without a callback; and leaves the URL, id,
    file path and retry count of the task object as they were. *)
Theorem perform_download_frame (self : AsyncDownloader) (w w' : World)
    (task task' : DownloadTask) (dest : Path) (r : result DownloadTask) :
  _perform_download self w task dest = (w', task', r) ->
  (forall k, k <> str dest -> files w' !! k = files w !! k)
  /\ (exists l, requests w' = requests w ++ l
                /\ (1 <= length l <= 2)%nat
                /\ Forall (fun q => req_url q = source_url task) l)
  /\ (exists l, emitted w' = emitted w ++ l
                /\ Forall (snapshot_of (source_url task)) l
                /\ (_progress_callback self = false -> l = []))
  /\ (source_url task' = source_url task /\ retry_count task' = retry_count task
      /\ id task' = id task /\ local_filepath task' = local_filepath task).
Proof.
  intros Hp.
  apply perform_download_effects in Hp
    as (_ & Hf & Hrq & Hem & (Hu & Hr & Hi & Hl & _) & _).
  done.
Qed.

Lemma perform_download_frame_witness :
  (forall k, k <> str (mkPath true ["data"; "downloads"; "a.bin"]) ->
     files (fst (fst (_perform_download (downloader not_satisfiable)
                        world_with_partial resumed_task
                        (mkPath true ["data"; "downloads"; "a.bin"])))) !! k
     = files world_with_partial !! k)
  /\ (exists l,
        requests (fst (fst (_perform_download (downloader not_satisfiable)
                              world_with_partial resumed_task
                              (mkPath true ["data"; "downloads"; "a.bin"]))))
        = requests world_with_partial ++ l
        /\ (1 <= length l <= 2)%nat
        /\ Forall (fun q => req_url q = source_url resumed_task) l)
  /\ (exists l,
        emitted (fst (fst (_perform_download (downloader not_satisfiable)
                             world_with_partial resumed_task
                             (mkPath true ["data"; "downloads"; "a.bin"]))))
        = emitted world_with_partial ++ l
        /\ Forall (snapshot_of (source_url resumed_task)) l
        /\ (_progress_callback (downloader not_satisfiable) = false -> l = []))
  /\ (source_url (snd (fst (_perform_download (downloader not_satisfiable)
                              world_with_partial resumed_task
                              (mkPath true ["data"; "downloads"; "a.bin"]))))
      = source_url resumed_task
      /\ retry_count (snd (fst (_perform_download (downloader not_satisfiable)
                                  world_with_partial resumed_task
                                  (mkPath true ["data"; "downloads"; "a.bin"]))))
         = retry_count resumed_task
      /\ id (snd (fst (_perform_download (downloader not_satisfiable)
                         world_with_partial resumed_task
                         (mkPath true ["data"; "downloads"; "a.bin"]))))
         = id resumed_task
      /\ local_filepath (snd (fst (_perform_download (downloader not_satisfiable)
                                     world_with_partial resumed_task
                                     (mkPath true ["data"; "downloads"; "a.bin"]))))
         = local_filepath resumed_task).
Proof.
  apply (perform_download_frame (downloader not_satisfiable) world_with_partial
           (fst (fst (_perform_download (downloader not_satisfiable)
                        world_with_partial resumed_task
                        (mkPath true ["data"; "downloads"; "a.bin"]))))
           resumed_task
           (snd (fst (_perform_download (downloader not_satisfiable)
                        world_with_partial resumed_task
                        (mkPath true ["data"; "downloads"; "a.bin"]))))
           (mkPath true ["data"; "downloads"; "a.bin"])
           (snd (_perform_download (downloader not_satisfiable)
                   world_with_partial resumed_task
                   (mkPath true ["data"; "downloads"; "a.bin"])))).
  vm_compute. reflexivity.
Defined.

(** ** Byte counts *)

Lemma stream_body_bytes (self : AsyncDownloader) (key : string) (total : Z)
    (chunks : list (list byte)) (w : World) (task : DownloadTask)
    (hasher : list byte) (downloaded : Z) :
  bytes_downloaded task = downloaded ->
  bytes_downloaded
    (snd (fst (fst (stream_body self key total chunks w task hasher downloaded))))
  = downloaded + len (concat chunks)
  /\ total_bytes
       (snd (fst (fst (stream_body self key total chunks w task hasher downloaded))))
     = total_bytes task.
Proof.
  revert w task hasher downloaded.
  induction chunks as [|chunk rest IH]; intros w task hasher downloaded Hb.
  - simpl. unfold len. simpl. split; [lia | done].
  - cbn [stream_body concat].
    destruct (IH (_emit_progress self (write_chunk key chunk w)
                    (with_bytes_downloaded task (downloaded + len chunk)) total)
                 (with_bytes_downloaded task (downloaded + len chunk))
                 (hasher ++ chunk) (downloaded + len chunk) eq_refl) as [H1 H2].
    rewrite H1, H2, len_app. split; [lia | done].
Qed.

Lemma perform_download_counts (self : AsyncDownloader) (w w' : World)
    (task task' : DownloadTask) (dest : Path) (response : Response)
    (r : result DownloadTask) :
  server self (length (requests w))
         (mkRequest (source_url task) (range_header w (str dest)))
  = Responded response ->
  resp_status response = 200 \/ resp_status response = 206 ->
  resp_error response = None ->
  _perform_download self w task dest = (w', task', r) ->
  bytes_downloaded task'
  = start_bytes w task (str dest) + len (concat (resp_chunks response))
  /\ total_bytes task'
     = Some (default 0 (resp_content_length response) + start_bytes w task (str dest)).
Proof.
  intros Hsrv Hst Herr. unfold _perform_download.
  destruct (perform_download_pre self w task (str dest)) as (task2 & -> & Ht2 & _).
  assert (Hu2 : source_url task2 = source_url task) by (by rewrite Ht2).
  assert (Hb2 : bytes_downloaded task2 = start_bytes w task (str dest))
    by (by rewrite Ht2).
  unfold transfer, session_get.
  change (requests (ledger_update self w (with_status task DOWNLOADING)))
    with (requests w).
  rewrite Hu2, Hsrv.
  assert ((resp_status response =? 416) = false) as ->
    by (destruct Hst as [-> | ->]; done).
  assert (((resp_status response =? 200) || (resp_status response =? 206)) = true)
    as -> by (destruct Hst as [-> | ->]; done).
  rewrite Herr.
  match goal with
  | |- context [stream_body self ?k ?t ?c ?w0 ?t0 ?h ?d] =>
      destruct (stream_body_bytes self k t c w0 t0 h d eq_refl) as [Hb Ht];
      destruct (stream_body self k t c w0 t0 h d) as [[[w2 task3] hasher] dl]
  end.
  cbn [fst snd] in Hb, Ht. cbn [total_bytes with_total_bytes] in Ht.
  rewrite finish_transfer_raises. rewrite <- Hb2.
  intros [= <- <- <-]. split; congruence.
Qed.

(** X19: in a transfer answered 200 or 206 whose body arrives whole,
    however the call ends, bytes_downloaded ends as the bytes started
    from plus the length of the body, and total_bytes as the Content-Length
    (0 if absent) plus the bytes started from; the two agree exactly when
    the Content-Length is the length of the body. *)
Theorem transfer_byte_counts (self : AsyncDownloader) (w w' : World)
    (task task' : DownloadTask) (dest : Path) (response : Response)
    (r : result DownloadTask) :
  server self (length (requests w))
         (mkRequest (source_url task) (range_header w (str dest)))
  = Responded response ->
  resp_status response = 200 \/ resp_status response = 206 ->
  resp_error response = None ->
  _perform_download self w task dest = (w', task', r) ->
  bytes_downloaded task'
  = start_bytes w task (str dest) + len (concat (resp_chunks response))
  /\ total_bytes task'
     = Some (default 0 (resp_content_length response) + start_bytes w task (str dest))
  /\ (total_bytes task' = Some (bytes_downloaded task')
      <-> default 0 (resp_content_length response)
          = len (concat (resp_chunks response))).
Proof.
  intros Hsrv Hst Herr Hp.
  destruct (perform_download_counts self w w' task task' dest response r
              Hsrv Hst Herr Hp) as [Hb Ht].
  split; [done|]. split; [done|]. rewrite Hb, Ht.
  split; [intros [= H]; lia | intros ->; f_equal; lia].
Qed.

Lemma transfer_byte_counts_witness :
  exists (task' : DownloadTask),
    bytes_downloaded task' = start_bytes world_with_partial resumed_task
                               "/data/downloads/a.bin"
                             + len (concat [bytes "CD"])
    /\ total_bytes task'
       = Some (default 0 (Some 2)
               + start_bytes world_with_partial resumed_task "/data/downloads/a.bin")
    /\ (total_bytes task' = Some (bytes_downloaded task')
        <-> default 0 (Some 2) = len (concat [bytes "CD"])).
Proof.
  eexists.
  apply (transfer_byte_counts (downloader continuing) world_with_partial
           (fst (fst (_perform_download (downloader continuing) world_with_partial
                        resumed_task (mkPath true ["data"; "downloads"; "a.bin"]))))
           resumed_task _ (mkPath true ["data"; "downloads"; "a.bin"])
           (mkResponse 206 (Some 2) [bytes "CD"] None)
           (snd (_perform_download (downloader continuing) world_with_partial
                   resumed_task (mkPath true ["data"; "downloads"; "a.bin"])))).
  - reflexivity.
  - right. reflexivity.
  - reflexivity.
  - vm_compute. reflexivity.
Defined.

(** ** Transfers that fail *)

(** X21: a status other than 200, 206 and 416 ends the transfer after one
    request with DownloadFailedError for the URL, carrying the text of the
    response error and the unchanged retry count; the task object is
    FAILED with that text, no file is touched, and the ledger has the task
    as DOWNLOADING. *)
Theorem unexpected_status_fails (self : AsyncDownloader) (w : World)
    (task : DownloadTask) (dest : Path) (response : Response) :
  server self (length (requests w))
         (mkRequest (source_url task) (range_header w (str dest)))
  = Responded response ->
  resp_status response <> 200 -> resp_status response <> 206 ->
  resp_status response <> 416 ->
  exists task',
    _perform_download self w task dest
    = (mkWorld (update_task (clock self) (with_status task DOWNLOADING) (ledger w))
               (files w)
               (requests w ++ [mkRequest (source_url task) (range_header w (str dest))])
               (emitted w),
       task',
       Raise (DownloadFailedError (source_url task)
                (response_error_text (resp_status response) (source_url task))
                (retry_count task)))
    /\ status task' = FAILED
    /\ error_message task'
       = Some (response_error_text (resp_status response) (source_url task)).
Proof.
  intros Hsrv H200 H206 H416. unfold _perform_download.
  destruct (perform_download_pre self w task (str dest)) as (task2 & -> & -> & _).
  unfold transfer, session_get.
  cbn [source_url with_status with_bytes_downloaded requests ledger_update set_ledger
       ledger files emitted retry_count].
  rewrite Hsrv.
  assert ((resp_status response =? 416) = false) as -> by (by apply Z.eqb_neq).
  assert ((resp_status response =? 200) = false) as -> by (by apply Z.eqb_neq).
  assert ((resp_status response =? 206) = false) as -> by (by apply Z.eqb_neq).
  cbn. eauto.
Qed.

Lemma unexpected_status_fails_witness :
  exists task',
    _perform_download (downloader (fun _ _ => Responded (mkResponse 404 None [] None)))
                      empty_world fresh_task
                      (mkPath true ["data"; "downloads"; "a.bin"])
    = (mkWorld (update_task 1000 (with_status fresh_task DOWNLOADING) [])
               ∅
               ([] ++ [mkRequest "http://x/a"
                                 (range_header empty_world "/data/downloads/a.bin")])
               [],
       task',
       Raise (DownloadFailedError "http://x/a"
                (response_error_text 404 "http://x/a") 0))
    /\ status task' = FAILED
    /\ error_message task' = Some (response_error_text 404 "http://x/a").
Proof.
  apply (unexpected_status_fails
           (downloader (fun _ _ => Responded (mkResponse 404 None [] None)))
           empty_world fresh_task (mkPath true ["data"; "downloads"; "a.bin"])
           (mkResponse 404 None [] None)).
  - reflexivity.
  - discriminate.
  - discriminate.
  - discriminate.
Defined.

(** X22: when the stream of a 200 or 206 answer breaks, the chunks
    received before stay appended to the file, the task object counts
    them, and the typed error is raised; if the file is then not empty,
    the next call will ask for the range starting at its size, so the
    failed attempt is resumed rather than repeated. *)
Theorem broken_stream_keeps_partial (self : AsyncDownloader) (w : World)
    (task : DownloadTask) (dest : Path) (response : Response) (e : net_error) :
  server self (length (requests w))
         (mkRequest (source_url task) (range_header w (str dest)))
  = Responded response ->
  resp_status response = 200 \/ resp_status response = 206 ->
  resp_error response = Some e ->
  exists (w' : World) (task' : DownloadTask) (err : exn),
    _perform_download self w task dest = (w', task', Raise err)
    /\ is_typed_error err = true
    /\ status task' = FAILED
    /\ files w' !! str dest
       = Some (default [] (files w !! str dest) ++ concat (resp_chunks response))
    /\ bytes_downloaded task'
       = start_bytes w task (str dest) + len (concat (resp_chunks response))
    /\ (0 < len (default [] (files w !! str dest) ++ concat (resp_chunks response)) ->
        range_header w' (str dest)
        = Some (len (default [] (files w !! str dest)
                     ++ concat (resp_chunks response)))).
Proof.
  intros Hsrv Hst Herr. unfold _perform_download.
  destruct (perform_download_pre self w task (str dest)) as (task2 & -> & Ht2 & Hold).
  unfold transfer, session_get.
  change (requests (ledger_update self w (with_status task DOWNLOADING)))
    with (requests w).
  assert (Hu2 : source_url task2 = source_url task) by (by rewrite Ht2).
  rewrite Hu2, Hsrv.
  assert ((resp_status response =? 416) = false) as ->
    by (destruct Hst as [-> | ->]; done).
  assert (((resp_status response =? 200) || (resp_status response =? 206)) = true)
    as -> by (destruct Hst as [-> | ->]; done).
  rewrite Herr.
  set (w1 := open_for_write (str dest) _ _).
  assert (Hf1 : files w1 !! str dest = Some (default [] (files w !! str dest))).
  { unfold w1, open_for_write, set_files. cbn [files ledger_update set_ledger].
    rewrite lookup_insert_eq. by rewrite Hold. }
  match goal with
  | |- context [stream_body self ?k ?t ?c ?w0 ?t0 ?h ?d] =>
      destruct (stream_body_spec self k t c w0 t0 h _ d Hf1) as (em & bd & Heq);
      destruct (stream_body_bytes self k t c w0 t0 h d eq_refl) as [Hb _]
  end.
  rewrite Heq in Hb |- *. cbn [fst snd bytes_downloaded with_bytes_downloaded] in Hb.
  assert (Hstart : bytes_downloaded task2 = start_bytes w task (str dest))
    by (by rewrite Ht2).
  assert (Hfile : forall em',
            files (mkWorld (ledger w1)
                     (<[str dest := default [] (files w !! str dest)
                                    ++ concat (resp_chunks response)]> (files w1))
                     (requests w1) em') !! str dest
            = Some (default [] (files w !! str dest) ++ concat (resp_chunks response)))
    by (intros; cbn [files]; apply lookup_insert_eq).
  destruct e; cbn [exn_of_net].
  - eexists _, _, _. split; [reflexivity|]. split; [done|]. split; [done|].
    split; [apply Hfile|]. split; [cbn; lia|].
    intros Hpos. unfold range_header. rewrite Hfile.
    by destruct (Z.ltb_spec 0 (len (default [] (files w !! str dest)
                                    ++ concat (resp_chunks response)))); [|lia].
  - eexists _, _, _. split; [reflexivity|]. split; [done|]. split; [done|].
    split; [apply Hfile|]. split; [cbn; lia|].
    intros Hpos. unfold range_header. rewrite Hfile.
    by destruct (Z.ltb_spec 0 (len (default [] (files w !! str dest)
                                    ++ concat (resp_chunks response)))); [|lia].
Qed.

Lemma broken_stream_keeps_partial_witness :
  exists (w' : World) (task' : DownloadTask) (err : exn),
    _perform_download (downloader breaking) empty_world fresh_task
                      (mkPath true ["data"; "downloads"; "a.bin"])
    = (w', task', Raise err)
    /\ is_typed_error err = true
    /\ status task' = FAILED
    /\ files w' !! "/data/downloads/a.bin"
       = Some (default [] (files empty_world !! "/data/downloads/a.bin")
               ++ concat [bytes "AB"])
    /\ bytes_downloaded task'
       = start_bytes empty_world fresh_task "/data/downloads/a.bin"
         + len (concat [bytes "AB"])
    /\ (0 < len (default [] (files empty_world !! "/data/downloads/a.bin")
                 ++ concat [bytes "AB"]) ->
        range_header w' "/data/downloads/a.bin"
        = Some (len (default [] (files empty_world !! "/data/downloads/a.bin")
                     ++ concat [bytes "AB"]))).
Proof.
  apply (broken_stream_keeps_partial (downloader breaking) empty_world fresh_task
           (mkPath true ["data"; "downloads"; "a.bin"])
           (mkResponse 200 (Some 4) [bytes "AB"]
                       (Some (NetClientError "Connection reset")))
           (NetClientError "Connection reset")).
  - reflexivity.
  - left. reflexivity.
  - reflexivity.
Defined.

(** X23: when no file is at the destination, so that the request carries
    no range, a 416 answer makes the unlink fail: FileNotFoundError, which
    no except clause catches, leaves the call after one request, with the
    task object still DOWNLOADING, the ledger row DOWNLOADING and nothing
    written. *)
Theorem range_refused_without_file (self : AsyncDownloader) (w : World)
    (task : DownloadTask) (dest : Path) (response : Response) :
  files w !! str dest = None ->
  server self (length (requests w)) (mkRequest (source_url task) None)
  = Responded response ->
  resp_status response = 416 ->
  _perform_download self w task dest
  = (mkWorld (update_task (clock self) (with_status task DOWNLOADING) (ledger w))
             (files w) (requests w ++ [mkRequest (source_url task) None]) (emitted w),
     with_status task DOWNLOADING,
     Raise (FileNotFoundError (str dest))).
Proof.
  intros Hf Hsrv H416. unfold _perform_download.
  change (files (ledger_update self w (with_status task DOWNLOADING)))
    with (files w).
  rewrite Hf. unfold transfer, session_get.
  cbn [source_url with_status requests ledger_update set_ledger ledger files emitted].
  rewrite Hsrv, H416. cbn [Z.eqb Pos.eqb]. unfold unlink. cbn [files].
  rewrite Hf. reflexivity.
Qed.

Lemma range_refused_without_file_witness :
  _perform_download (downloader (fun _ _ => Responded (mkResponse 416 None [] None)))
                    empty_world fresh_task
                    (mkPath true ["data"; "downloads"; "a.bin"])
  = (mkWorld (update_task 1000 (with_status fresh_task DOWNLOADING) []) ∅
             ([] ++ [mkRequest "http://x/a" None]) [],
     with_status fresh_task DOWNLOADING,
     Raise (FileNotFoundError "/data/downloads/a.bin")).
Proof.
  apply (range_refused_without_file
           (downloader (fun _ _ => Responded (mkResponse 416 None [] None)))
           empty_world fresh_task (mkPath true ["data"; "downloads"; "a.bin"])
           (mkResponse 416 None [] None)).
  - reflexivity.
  - reflexivity.
  - reflexivity.
Defined.

(** ** The second downloader *)

Lemma write_chunks_not_paused (u key : string) (chunks : list (list byte))
    (st : Services.State) (old : list byte) :
  u ∉ Services._paused st ->
  Services.files st !! key = Some old ->
  Services.write_chunks u key chunks st
  = Services.mkState (<[key := old ++ concat chunks]> (Services.files st))
                     (Services.requests st) (Services._paused st).
Proof.
  revert st old. induction chunks as [|chunk rest IH]; intros st old Hp Hf.
  - cbn. rewrite app_nil_r, (insert_id _ _ _ Hf). by destruct st.
  - cbn [Services.write_chunks concat]. destruct (decide _) as [Hin|_]; [done|].
    rewrite (IH _ (old ++ chunk)); cbn [Services.files Services.requests Services._paused].
    + rewrite Hf. cbn [default]. by rewrite insert_insert_eq, app_assoc.
    + done.
    + rewrite Hf. cbn [default]. apply lookup_insert_eq.
Qed.

Lemma write_chunks_paused (u key : string) (chunks : list (list byte))
    (st : Services.State) :
  u ∈ Services._paused st -> Services.write_chunks u key chunks st = st.
Proof.
  intros Hin. destruct chunks as [|chunk rest]; [done|].
  cbn [Services.write_chunks]. destruct (decide _) as [_|Hn]; [|done].
  unfold Services.pause. destruct st as [fs rq ps]. cbn in *. f_equal.
  apply subseteq_union_1_L. by apply singleton_subseteq_l.
Qed.

Lemma write_chunks_paused_set (u key : string) (chunks : list (list byte))
    (st : Services.State) :
  Services._paused (Services.write_chunks u key chunks st) = Services._paused st.
Proof.
  destruct (decide (u ∈ Services._paused st)) as [Hin|Hn].
  - by rewrite write_chunks_paused.
  - revert st Hn. induction chunks as [|chunk rest IH]; intros st Hn; [done|].
    cbn [Services.write_chunks]. destruct (decide _) as [Hin|_]; [done|].
    by rewrite IH.
Qed.

Lemma fetch_paused_set (server : nat -> Request -> Outcome) (st : Services.State)
    (u : string) (path : Path) (range : option Z) :
  Services._paused (fst (Services.fetch server st u path range))
  = Services._paused st.
Proof.
  unfold Services.fetch.
  destruct (server _ _) as [e|response]; [done|].
  destruct (400 <=? resp_status response); [done|].
  cbn [Services.files Services.requests Services._paused].
  destruct (resp_error response); cbn [fst]; by rewrite write_chunks_paused_set.
Qed.

Lemma services_download_absent (server : nat -> Request -> Outcome)
    (st : Services.State) (u : string) (path : Path) :
  Services.files st !! str path = None ->
  Services.download server st u path
  = match Services.fetch server st u path None with
    | (st', Ok h) => (st', Services.mkTask u path Services.COMPLETED 0 None (Some h))
    | (st', Raise e) =>
        (st', Services.mkTask u path Services.FAILED 0 (Some (str_exn e)) None)
    end.
Proof. intros Hf. unfold Services.download. by rewrite Hf. Qed.

(** X25: in the second downloader, a call for a destination that is not
    there, for a URL that is not paused, answered with a status below 400
    and a stream that ends well, issues one request without a range, writes
    the chunks in order to the destination and returns a COMPLETED task
    whose digest is the one of the bytes written. *)
Theorem services_download_fresh (server : nat -> Request -> Outcome)
    (st : Services.State) (u : string) (path : Path) (response : Response) :
  Services.files st !! str path = None ->
  u ∉ Services._paused st ->
  server (length (Services.requests st)) (mkRequest u None) = Responded response ->
  resp_status response < 400 ->
  resp_error response = None ->
  Services.download server st u path
  = (Services.mkState (<[str path := concat (resp_chunks response)]> (Services.files st))
                      (Services.requests st ++ [mkRequest u None])
                      (Services._paused st),
     Services.mkTask u path Services.COMPLETED 0 None
                     (Some (SHA256.hexdigest (concat (resp_chunks response))))).
Proof.
  intros Hf Hp Hsrv Hst Herr. rewrite (services_download_absent _ _ _ _ Hf).
  unfold Services.fetch. rewrite Hsrv.
  assert ((400 <=? resp_status response) = false) as -> by (apply Z.leb_gt; lia).
  cbn [Services.files Services.requests Services._paused].
  rewrite (write_chunks_not_paused u (str path) (resp_chunks response) _ []);
    [|done|apply lookup_insert_eq].
  cbn [Services.files Services.requests Services._paused app].
  rewrite Herr, insert_insert_eq.
  by rewrite (compute_file_hash_whole _ _ (concat (resp_chunks response)))
    by apply lookup_insert_eq.
Qed.

Lemma services_download_fresh_witness :
  Services.download same_content services_fresh "http://x/a"
                    (mkPath true ["data"; "downloads"; "a.bin"])
  = (Services.mkState
       (<[str (mkPath true ["data"; "downloads"; "a.bin"])
          := concat [bytes "AB"; bytes "CD"]]> (Services.files services_fresh))
       (Services.requests services_fresh ++ [mkRequest "http://x/a" None])
       (Services._paused services_fresh),
     Services.mkTask "http://x/a" (mkPath true ["data"; "downloads"; "a.bin"])
                     Services.COMPLETED 0 None
                     (Some (SHA256.hexdigest (concat [bytes "AB"; bytes "CD"])))).
Proof.
  apply (services_download_fresh same_content services_fresh "http://x/a"
           (mkPath true ["data"; "downloads"; "a.bin"])
           (mkResponse 200 (Some 4) [bytes "AB"; bytes "CD"] None)).
  - reflexivity.
  - apply not_elem_of_empty.
  - reflexivity.
  - reflexivity.
  - reflexivity.
Defined.

(** X26: a call for a paused URL whose destination is not there, answered
    with a status below 400, writes no byte: it leaves an empty file at the
    destination and returns a task that is COMPLETED, not PAUSED, with the
    digest of the empty file. *)
Theorem services_download_paused (server : nat -> Request -> Outcome)
    (st : Services.State) (u : string) (path : Path) (response : Response) :
  Services.files st !! str path = None ->
  u ∈ Services._paused st ->
  server (length (Services.requests st)) (mkRequest u None) = Responded response ->
  resp_status response < 400 ->
  resp_error response = None ->
  Services.download server st u path
  = (Services.mkState (<[str path := []]> (Services.files st))
                      (Services.requests st ++ [mkRequest u None])
                      (Services._paused st),
     Services.mkTask u path Services.COMPLETED 0 None (Some (SHA256.hexdigest []))).
Proof.
  intros Hf Hp Hsrv Hst Herr. rewrite (services_download_absent _ _ _ _ Hf).
  unfold Services.fetch. rewrite Hsrv.
  assert ((400 <=? resp_status response) = false) as -> by (apply Z.leb_gt; lia).
  cbn [Services.files Services.requests Services._paused].
  rewrite write_chunks_paused by done. rewrite Herr.
  by rewrite (compute_file_hash_whole _ _ []) by apply lookup_insert_eq.
Qed.

Lemma services_download_paused_witness :
  Services.download same_content services_paused "http://x/a"
                    (mkPath true ["data"; "downloads"; "a.bin"])
  = (Services.mkState
       (<[str (mkPath true ["data"; "downloads"; "a.bin"]) := []]>
          (Services.files services_paused))
       (Services.requests services_paused ++ [mkRequest "http://x/a" None])
       (Services._paused services_paused),
     Services.mkTask "http://x/a" (mkPath true ["data"; "downloads"; "a.bin"])
                     Services.COMPLETED 0 None (Some (SHA256.hexdigest []))).
Proof.
  apply (services_download_paused same_content services_paused "http://x/a"
           (mkPath true ["data"; "downloads"; "a.bin"])
           (mkResponse 200 (Some 4) [bytes "AB"; bytes "CD"] None)).
  - reflexivity.
  - unfold services_paused. cbn [Services._paused]. by apply elem_of_singleton_2.
  - reflexivity.
  - reflexivity.
  - reflexivity.
Defined.

(** X27: when the request fails before a byte is read (the connection is
    refused or times out, or the status is 400 or more) and no file is at
    the destination, the call returns a FAILED task without digest whose
    message is the text of the exception; no file is created or changed,
    and the one request is in the log. *)
Theorem services_request_error_keeps_files (server : nat -> Request -> Outcome)
    (st : Services.State) (u : string) (path : Path) (err : exn) :
  Services.files st !! str path = None ->
  request_error (server (length (Services.requests st)) (mkRequest u None)) u
  = Some err ->
  Services.download server st u path
  = (Services.mkState (Services.files st)
                      (Services.requests st ++ [mkRequest u None])
                      (Services._paused st),
     Services.mkTask u path Services.FAILED 0 (Some (str_exn err)) None).
Proof.
  intros Hf Herr. rewrite (services_download_absent _ _ _ _ Hf).
  unfold Services.fetch. unfold request_error in Herr.
  destruct (server _ _) as [e|response].
  - by injection Herr as <-.
  - destruct (400 <=? resp_status response); [|done]. by injection Herr as <-.
Qed.

Lemma services_request_error_keeps_files_witness :
  Services.download not_found services_fresh "http://x/a"
                    (mkPath true ["data"; "downloads"; "a.bin"])
  = (Services.mkState (Services.files services_fresh)
                      (Services.requests services_fresh ++ [mkRequest "http://x/a" None])
                      (Services._paused services_fresh),
     Services.mkTask "http://x/a" (mkPath true ["data"; "downloads"; "a.bin"])
                     Services.FAILED 0
                     (Some (str_exn (ClientError (response_error_text 404 "http://x/a"))))
                     None).
Proof.
  apply (services_request_error_keeps_files not_found services_fresh "http://x/a"
           (mkPath true ["data"; "downloads"; "a.bin"])
           (ClientError (response_error_text 404 "http://x/a"))).
  - reflexivity.
  - reflexivity.
Defined.

(** X28: when the stream breaks after some chunks, the call returns FAILED
    and the chunks received stay in the file; the next call for the same
    destination, whatever the server would say, issues no request and
    returns COMPLETED with the digest of that partial file. *)
Theorem services_broken_stream_then_completed (server : nat -> Request -> Outcome)
    (st : Services.State) (u : string) (path : Path) (response : Response)
    (e : net_error) :
  Services.files st !! str path = None ->
  u ∉ Services._paused st ->
  server (length (Services.requests st)) (mkRequest u None) = Responded response ->
  resp_status response < 400 ->
  resp_error response = Some e ->
  Services.status (snd (Services.download server st u path)) = Services.FAILED
  /\ Services.sha256_hash (snd (Services.download server st u path)) = None
  /\ Services.files (fst (Services.download server st u path)) !! str path
     = Some (concat (resp_chunks response))
  /\ forall server' : nat -> Request -> Outcome,
       Services.download server' (fst (Services.download server st u path)) u path
       = (fst (Services.download server st u path),
          Services.mkTask u path Services.COMPLETED 0 None
                          (Some (SHA256.hexdigest (concat (resp_chunks response))))).
Proof.
  intros Hf Hp Hsrv Hst Herr. rewrite (services_download_absent _ _ _ _ Hf).
  unfold Services.fetch. rewrite Hsrv.
  assert ((400 <=? resp_status response) = false) as -> by (apply Z.leb_gt; lia).
  cbn [Services.files Services.requests Services._paused].
  rewrite (write_chunks_not_paused u (str path) (resp_chunks response) _ []);
    [|done|apply lookup_insert_eq].
  cbn [Services.files Services.requests Services._paused app].
  rewrite Herr, insert_insert_eq. cbn [fst snd Services.status Services.sha256_hash
                                       Services.files].
  assert (Hl : (<[str path := concat (resp_chunks response)]> (Services.files st))
               !! str path = Some (concat (resp_chunks response)))
    by apply lookup_insert_eq.
  repeat split; try done.
  intros server'. unfold Services.download. cbn [Services.files]. rewrite Hl.
  by rewrite (compute_file_hash_whole _ _ _ Hl), hexdigest_truthy.
Qed.

Lemma services_broken_stream_then_completed_witness :
  Services.status (snd (Services.download breaking services_fresh "http://x/a"
                          (mkPath true ["data"; "downloads"; "a.bin"])))
  = Services.FAILED
  /\ Services.sha256_hash
       (snd (Services.download breaking services_fresh "http://x/a"
               (mkPath true ["data"; "downloads"; "a.bin"]))) = None
  /\ Services.files
       (fst (Services.download breaking services_fresh "http://x/a"
               (mkPath true ["data"; "downloads"; "a.bin"])))
     !! str (mkPath true ["data"; "downloads"; "a.bin"])
     = Some (concat [bytes "AB"])
  /\ forall server' : nat -> Request -> Outcome,
       Services.download server'
         (fst (Services.download breaking services_fresh "http://x/a"
                 (mkPath true ["data"; "downloads"; "a.bin"])))
         "http://x/a" (mkPath true ["data"; "downloads"; "a.bin"])
       = (fst (Services.download breaking services_fresh "http://x/a"
                 (mkPath true ["data"; "downloads"; "a.bin"])),
          Services.mkTask "http://x/a" (mkPath true ["data"; "downloads"; "a.bin"])
                          Services.COMPLETED 0 None
                          (Some (SHA256.hexdigest (concat [bytes "AB"])))).
Proof.
  apply (services_broken_stream_then_completed breaking services_fresh "http://x/a"
           (mkPath true ["data"; "downloads"; "a.bin"])
           (mkResponse 200 (Some 4) [bytes "AB"]
                       (Some (NetClientError "Connection reset")))
           (NetClientError "Connection reset")).
  - reflexivity.
  - apply not_elem_of_empty.
  - reflexivity.
  - reflexivity.
  - reflexivity.
Defined.

(** X29: no call of download changes the set of paused URLs, so that
    get_status answers for every URL after the call what it answered
    before: PAUSED for one that is paused, PENDING for any other, also for
    a URL whose download has just completed or failed. *)
Theorem services_download_keeps_paused (server : nat -> Request -> Outcome)
    (st : Services.State) (u : string) (path : Path) :
  Services._paused (fst (Services.download server st u path)) = Services._paused st
  /\ forall v : string,
       services_get_status (fst (Services.download server st u path)) v
       = services_get_status st v
       /\ (services_get_status st v = Some Services.PAUSED
           \/ services_get_status st v = Some Services.PENDING).
Proof.
  assert (Hp : Services._paused (fst (Services.download server st u path))
               = Services._paused st).
  { unfold Services.download.
    destruct (Services.files st !! str path) as [content|] eqn:Hf.
    - rewrite (compute_file_hash_whole _ _ _ Hf), hexdigest_truthy. done.
    - pose proof (fetch_paused_set server st u path None) as H.
      destruct (Services.fetch server st u path None) as [st' [h|e]]; exact H. }
  split; [exact Hp|]. intros v. unfold services_get_status. rewrite Hp.
  destruct (decide (v ∈ Services._paused st)); auto.
Qed.
